(** * Turkish rule-based sentiment analysis: scorer, evaluator and metrics

    A shallow embedding of [src/sentiment_analysis.py] ([analyze_sentiment],
    [evaluate_model]), of [preprocess_text] and [preprocess_txt_words] from
    [src/data_preprocessing.py], and of the interactive loop and the metric
    formulas of [main] in [src/main.py].

    Conventions of the embedding:
    - Python [int] is [Z]; the true division [a / b] of two numbers is
      exact rational division in [Q] and raises [ZeroDivisionError] when
      the divisor is zero (floating-point rounding is not modelled);
    - a [dict] from roots to weights is a [gmap string Z]; the
      [defaultdict(list)] of found features is a [gmap string (list feat)];
    - code that may raise returns [exc A]; the values of [exn] stand for
      instances of Python's [Exception] class, which is what
      [except Exception] catches;
    - the Zemberek tokenizer and morphology, [str.lower], [str.strip] and
      the regular-expression substitution are external: they are the
      fields of the class [Externals] and the type [Morphology];
    - the two [except] branches print the exception before they return;
      [analyze_sentiment], [evaluate_model] and [preprocess_txt_words] are
      the functions on a console that accepts every text, and
      [analyze_sentiment_printing], [evaluate_model_printing] and
      [preprocess_txt_words_printing] take the console, whose [print] may
      raise, as a parameter. *)

From stdpp Require Import gmap strings list fin_maps.
From Stdlib Require Import ZArith QArith Lia Lqa Ascii.

Local Open Scope Z_scope.

(** ** Exceptions *)

Inductive exn : Type :=
| AttributeError (msg : string)
| ZeroDivisionError
| AdapterError (msg : string)
| UnicodeEncodeError.

Inductive exc (A : Type) : Type :=
| Ok (a : A)
| Raise (e : exn).
Arguments Ok {A} a.
Arguments Raise {A} e.

#[global] Instance exc_ret : MRet exc := fun A a => Ok a.
#[global] Instance exc_bind : MBind exc := fun A B f m =>
  match m with
  | Ok a => f a
  | Raise e => Raise e
  end.

(** [try: body except Exception as e: handler e]. *)
Definition try_except {A} (body : exc A) (handler : exn -> exc A) : exc A :=
  match body with
  | Ok a => Ok a
  | Raise e => handler e
  end.

(** ** Strings *)

(** Python's [pat in s] on strings: [pat] occurs in [s] as a substring. *)
Fixpoint str_contains (pat s : string) : bool :=
  String.prefix pat s ||
  match s with
  | EmptyString => false
  | String _ s' => str_contains pat s'
  end.

(** [sep.join(l)]. *)
Definition join (sep : string) (l : list string) : string := String.concat sep l.

(** ** Data model *)

(** [analysis.item]: the dictionary item of a morphological analysis.
    [root] and [normalized_form] may be [None] or empty; both attributes
    are taken to be readable on every item. *)
Record DictionaryItem : Type := {
  root : option string;
  normalized_form : option string
}.

(** One element of [best_analysis()].  [str_analysis] is [str(analysis)];
    [item] is the attribute access [analysis.item], which raises on a
    malformed analysis. *)
Record Analysis : Type := {
  str_analysis : string;
  item : exc DictionaryItem
}.

Inductive Sentiment : Type := Positive | Negative | Neutral | Error.

#[global] Instance Sentiment_eq_dec : EqDecision Sentiment.
Proof. solve_decision. Defined.

(** [predicate_info]: the dict with keys ['root'], ['is_negative'],
    ['full_analysis']. *)
Record PredicateInfo : Type := {
  pi_root : option string;
  pi_is_negative : bool;
  pi_full_analysis : string
}.

(** An element of one of the lists of [found_features]: a matched root, or
    the dict recorded under ['predicate']. *)
Inductive feat : Type :=
| FWord (w : string)
| FPredicate (froot : option string) (is_negative : bool) (analysis : string).

(** The dict returned by [analyze_sentiment]. *)
Record SentimentResult : Type := {
  sentiment : Sentiment;
  score : Z;
  confidence : Q;
  features : gmap string (list feat);
  predicate_analysis : option PredicateInfo
}.

(** The result built in the [except] branch. *)
Definition error_result : SentimentResult := {|
  sentiment := Error;
  score := 0;
  confidence := 0%Q;
  features := ∅;
  predicate_analysis := None
|}.

(** [found_features[k].append(x)] on a [defaultdict(list)]. *)
Definition dd_append (k : string) (x : feat) (m : gmap string (list feat))
  : gmap string (list feat) :=
  <[k := default [] (m !! k) ++ [x]]> m.

(** [a or b] on two optional strings: [a] when it is truthy (neither [None]
    nor empty), else [b]. *)
Definition py_or (a b : option string) : option string :=
  match a with
  | Some s => if decide (s = "") then b else Some s
  | None => b
  end.

(** ** The external collaborators *)

(** [str.lower], [str.strip], [re.sub(r'[^\w\s]', '', _)] and
    [TurkishTokenizer.DEFAULT.tokenize] (giving the [content] of each
    token).  The tokenizer may raise. *)
Class Externals : Type := {
  lower : string -> string;
  strip : string -> string;
  re_sub_nonword : string -> string;
  tokenize : string -> exc (list string)
}.

(** [morphology.analyze_and_disambiguate(_).best_analysis()]. *)
Definition Morphology : Type := string -> exc (list Analysis).

(** ** The scorer *)

Section Scorer.

Context {ext : Externals}.

Definition preprocess_text (text : string) : string :=
  let text := lower text in
  re_sub_nonword text.

(** [root = result.item.root or result.item.normalized_form;
     root = root.lower() if root else ""]. *)
Definition lexical_root (it : DictionaryItem) : string :=
  match py_or (root it) (normalized_form it) with
  | Some s => if decide (s = "") then "" else lower s
  | None => ""
  end.

(** The backward scan for the predicate, over [reversed(results)]: it
    stops at the first analysis whose text contains ["Verb"]. *)
Fixpoint find_predicate (rs : list Analysis) (predicate_multiplier : Z)
  : exc (Z * option PredicateInfo) :=
  match rs with
  | [] => Ok (predicate_multiplier, None)
  | analysis :: rs' =>
      let morphemes := str_analysis analysis in
      if str_contains "Verb" morphemes then
        let has_negation := str_contains "Neg" morphemes in
        it ← item analysis;
        let predicate_info := {| pi_root := root it;
                                 pi_is_negative := has_negation;
                                 pi_full_analysis := str_analysis analysis |} in
        Ok (if has_negation then -1 * predicate_multiplier
            else predicate_multiplier,
            Some predicate_info)
      else find_predicate rs' predicate_multiplier
  end.

(** The state of the scoring loop: [score], [confidence] (the match
    counter) and [found_features]. *)
Record acc : Type := {
  a_score : Z;
  a_confidence : Z;
  a_features : gmap string (list feat)
}.

(** One iteration of [for result in results]. *)
Definition score_step (positive_dict negative_dict : gmap string Z)
    (predicate_multiplier : Z) (st : acc) (result : Analysis) : exc acc :=
  it ← item result;
  let r := lexical_root it in
  match positive_dict !! r with
  | Some w =>
      Ok {| a_score := a_score st + w * predicate_multiplier;
            a_confidence := a_confidence st + 1;
            a_features := dd_append "positive_words" (FWord r) (a_features st) |}
  | None =>
      match negative_dict !! r with
      | Some w =>
          Ok {| a_score := a_score st + w * predicate_multiplier * -1;
                a_confidence := a_confidence st + 1;
                a_features := dd_append "negative_words" (FWord r) (a_features st) |}
      | None => Ok st
      end
  end.

Fixpoint score_loop (positive_dict negative_dict : gmap string Z)
    (predicate_multiplier : Z) (results : list Analysis) (st : acc) : exc acc :=
  match results with
  | [] => Ok st
  | result :: rest =>
      st' ← score_step positive_dict negative_dict predicate_multiplier st result;
      score_loop positive_dict negative_dict predicate_multiplier rest st'
  end.

(** [confidence / len(tokens) if tokens else 0]. *)
Definition confidence_score (confidence : Z) (tokens : list string) : Q :=
  match tokens with
  | [] => 0%Q
  | _ :: _ => Qmake confidence (Pos.of_nat (length tokens))
  end.

Definition sentiment_of_score (score : Z) : Sentiment :=
  if decide (score > 0) then Positive
  else if decide (score < 0) then Negative
  else Neutral.

(** [found_features] before the scoring loop: the predicate, if one was
    found, under ['predicate']. *)
Definition initial_features (predicate_info : option PredicateInfo)
  : gmap string (list feat) :=
  match predicate_info with
  | Some p => <["predicate" := [FPredicate (pi_root p) (pi_is_negative p)
                                           (pi_full_analysis p)]]> ∅
  | None => ∅
  end.

(** Lines 40-103: everything after the morphological analysis. *)
Definition score_results (tokens : list string) (results : list Analysis)
    (positive_dict negative_dict : gmap string Z) : exc SentimentResult :=
  '(predicate_multiplier, predicate_info) ← find_predicate (rev results) 1;
  let found_features := initial_features predicate_info in
  st ← score_loop positive_dict negative_dict predicate_multiplier results
       {| a_score := 0; a_confidence := 0; a_features := found_features |};
  Ok {| sentiment := sentiment_of_score (a_score st);
        score := a_score st;
        confidence := confidence_score (a_confidence st) tokens;
        features := a_features st;
        predicate_analysis := predicate_info |}.

(** [[t.content.lower() for t in raw_tokens if t.content.strip() != '']]. *)
Definition tokens_of (raw_tokens : list string) : list string :=
  map lower (filter (fun t => strip t ≠ "") raw_tokens).

(** The body of the [try] block. *)
Definition analyze_sentiment_body (sentence : string) (morphology : Morphology)
    (positive_dict negative_dict : gmap string Z) : exc SentimentResult :=
  let sentence := preprocess_text sentence in
  raw_tokens ← tokenize sentence;
  let tokens := tokens_of raw_tokens in
  results ← morphology (join " " tokens);
  score_results tokens results positive_dict negative_dict.

(** The [try]/[except] around the body, on a console that accepts every
    text: the [print] of the handler returns and the handler gives the
    Error result.  [analyze_sentiment_printing] has the console as a
    parameter. *)
Definition analyze_sentiment (sentence : string) (morphology : Morphology)
    (positive_dict negative_dict : gmap string Z) : exc SentimentResult :=
  try_except
    (analyze_sentiment_body sentence morphology positive_dict negative_dict)
    (fun e => Ok error_result).

(** The dict that [analyze_sentiment] hands to its caller, as a value. *)
Definition analysis_of (sentence : string) (morphology : Morphology)
    (positive_dict negative_dict : gmap string Z) : SentimentResult :=
  match analyze_sentiment_body sentence morphology positive_dict negative_dict with
  | Ok r => r
  | Raise _ => error_result
  end.

End Scorer.

(** ** The evaluator *)

(** An element of [results['wrong_predictions']]. *)
Record WrongPrediction : Type := {
  wp_text : string;
  wp_true_label : string;
  wp_predicted : Sentiment;
  wp_confidence : Q
}.

(** An element of [results['predictions']]. *)
Record Prediction : Type := {
  p_text : string;
  p_true_label : string;
  p_predicted : Sentiment;
  p_confidence : Q;
  p_features : gmap string (list feat)
}.

(** The [results] dict of [evaluate_model]. *)
Record EvalResults : Type := {
  DP : Z;
  DN : Z;
  YP : Z;
  YN : Z;
  predictions : list Prediction;
  wrong_predictions : list WrongPrediction
}.

Definition initial_results : EvalResults := {|
  DP := 0; DN := 0; YP := 0; YN := 0;
  predictions := []; wrong_predictions := []
|}.

Section Evaluator.

Context {ext : Externals}.

Definition wrong_entry (sentence true_label : string) (analysis : SentimentResult)
  : WrongPrediction :=
  {| wp_text := sentence;
     wp_true_label := true_label;
     wp_predicted := sentiment analysis;
     wp_confidence := confidence analysis |}.

Definition prediction_entry (sentence true_label : string)
    (analysis : SentimentResult) : Prediction :=
  {| p_text := sentence;
     p_true_label := true_label;
     p_predicted := sentiment analysis;
     p_confidence := confidence analysis;
     p_features := features analysis |}.

(** The [if]/[elif] chain of the loop body: the counters and
    [wrong_predictions] after one test case. *)
Definition classify (results : EvalResults) (sentence true_label : string)
    (analysis : SentimentResult) : EvalResults :=
  let prediction := sentiment analysis in
  let wrong := wrong_predictions results ++ [wrong_entry sentence true_label analysis] in
  if bool_decide (prediction = Positive) && bool_decide (true_label = "Pozitif") then
    {| DP := DP results + 1; DN := DN results; YP := YP results; YN := YN results;
       predictions := predictions results;
       wrong_predictions := wrong_predictions results |}
  else if bool_decide (prediction = Negative) && bool_decide (true_label = "Negatif") then
    {| DP := DP results; DN := DN results + 1; YP := YP results; YN := YN results;
       predictions := predictions results;
       wrong_predictions := wrong_predictions results |}
  else if bool_decide (prediction = Positive) && bool_decide (true_label = "Negatif") then
    {| DP := DP results; DN := DN results; YP := YP results + 1; YN := YN results;
       predictions := predictions results;
       wrong_predictions := wrong |}
  else if bool_decide (prediction = Negative) && bool_decide (true_label = "Pozitif") then
    {| DP := DP results; DN := DN results; YP := YP results; YN := YN results + 1;
       predictions := predictions results;
       wrong_predictions := wrong |}
  else if bool_decide (prediction = Neutral) then
    if bool_decide (true_label = "Pozitif") then
      {| DP := DP results; DN := DN results; YP := YP results; YN := YN results + 1;
         predictions := predictions results;
         wrong_predictions := wrong |}
    else
      {| DP := DP results; DN := DN results; YP := YP results + 1; YN := YN results;
         predictions := predictions results;
         wrong_predictions := wrong |}
  else results.

(** One iteration of [for sentence, true_label in test_data]. *)
Definition evaluate_step (morphology : Morphology)
    (positive_dict negative_dict : gmap string Z)
    (results : EvalResults) (case : string * string) : exc EvalResults :=
  let '(sentence, true_label) := case in
  analysis ← analyze_sentiment sentence morphology positive_dict negative_dict;
  let results := classify results sentence true_label analysis in
  Ok {| DP := DP results; DN := DN results; YP := YP results; YN := YN results;
        predictions :=
          predictions results ++ [prediction_entry sentence true_label analysis];
        wrong_predictions := wrong_predictions results |}.

Fixpoint evaluate_loop (morphology : Morphology)
    (positive_dict negative_dict : gmap string Z)
    (test_data : list (string * string)) (results : EvalResults)
  : exc EvalResults :=
  match test_data with
  | [] => Ok results
  | case :: rest =>
      results' ← evaluate_step morphology positive_dict negative_dict results case;
      evaluate_loop morphology positive_dict negative_dict rest results'
  end.

Definition evaluate_model (test_data : list (string * string))
    (morphology : Morphology) (positive_dict negative_dict : gmap string Z)
  : exc EvalResults :=
  evaluate_loop morphology positive_dict negative_dict test_data initial_results.

End Evaluator.

(** ** The metrics of [main] *)

(** Python's true division: raises on a zero divisor. *)
Definition py_div (a b : Q) : exc Q :=
  if Qeq_bool b 0 then Raise ZeroDivisionError else Ok (a / b)%Q.

Record Metrics : Type := {
  accuracy : Q;
  precision : Q;
  recall : Q;
  f1 : Q
}.

(** Lines 64-75 of [main]. *)
Definition compute_metrics (results : EvalResults) : exc Metrics :=
  let total := DP results + DN results + YP results + YN results in
  accuracy ←
    (if decide (total > 0)
     then py_div (inject_Z (DP results + DN results)) (inject_Z total)
     else Ok 0%Q);
  precision ←
    (if decide (DP results + YP results > 0)
     then py_div (inject_Z (DP results)) (inject_Z (DP results + YP results))
     else Ok 0%Q);
  recall ←
    (if decide (DP results + YN results > 0)
     then py_div (inject_Z (DP results)) (inject_Z (DP results + YN results))
     else Ok 0%Q);
  f1 ←
    (if Qlt_le_dec 0 (precision + recall)
     then py_div (2 * precision * recall) (precision + recall)
     else Ok 0%Q);
  Ok {| accuracy := accuracy; precision := precision; recall := recall; f1 := f1 |}.

(** ** Test doubles for the external collaborators

    Small stand-ins for the tokenizer and the morphology, used to run the
    model on concrete sentences: words are separated by blanks, every word
    is its own root and a noun, except ["değil"], which is tagged as a
    negated verb. *)

Definition ascii_lower (c : ascii) : ascii :=
  let n := nat_of_ascii c in
  if (65 <=? n)%nat && (n <=? 90)%nat then ascii_of_nat (n + 32) else c.

Fixpoint map_string (f : ascii -> ascii) (s : string) : string :=
  match s with
  | EmptyString => EmptyString
  | String c s' => String (f c) (map_string f s')
  end.

Fixpoint lstrip (s : string) : string :=
  match s with
  | String " " s' => lstrip s'
  | _ => s
  end.

Definition test_externals : Externals := {|
  lower := map_string ascii_lower;
  strip := fun s => String.rev (lstrip (String.rev (lstrip s)));
  re_sub_nonword := fun s => s;
  tokenize := fun s => Ok (String.words s)
|}.

Definition test_analysis (w : string) : Analysis :=
  {| str_analysis :=
       if String.eqb w "değil" then "[değil:Verb] değil:Verb+Neg+Pres+A3sg"
       else String.append w ":Noun+A3sg";
     item := Ok {| root := Some w; normalized_form := Some w |} |}.

Definition test_morphology : Morphology :=
  fun s => Ok (map test_analysis (String.words s)).

(** A morphology whose analysis raises. *)
Definition failing_morphology : Morphology :=
  fun _ => Raise (AdapterError "analysis failed").

(** A morphology that returns one malformed analysis. *)
Definition malformed_morphology : Morphology :=
  fun _ => Ok [{| str_analysis := "?";
                  item := Raise (AttributeError "item") |}].

(** ** Vocabulary of the properties *)

Section Vocabulary.

Context {ext : Externals}.

(** An analysis is well formed when its [item] can be read. *)
Definition well_formed (a : Analysis) : Prop := exists it, item a = Ok it.

(** An analysis whose lexical root is a key of neither lexicon. *)
Definition unmatched (positive_dict negative_dict : gmap string Z)
    (a : Analysis) : Prop :=
  exists it, item a = Ok it /\
             positive_dict !! lexical_root it = None /\
             negative_dict !! lexical_root it = None.

(** A lexicon match: the lexical root is a key of one of the lexicons. *)
Definition is_match (positive_dict negative_dict : gmap string Z)
    (a : Analysis) : bool :=
  match item a with
  | Ok it =>
      bool_decide (is_Some (positive_dict !! lexical_root it) \/
                   is_Some (negative_dict !! lexical_root it))
  | Raise _ => false
  end.

Definition match_count (positive_dict negative_dict : gmap string Z)
    (results : list Analysis) : nat :=
  length (filter (fun a => is_match positive_dict negative_dict a = true) results).

(** The text of an analysis carries the verb tag, the negation tag. *)
Definition is_verb (a : Analysis) : bool := str_contains "Verb" (str_analysis a).
Definition is_neg (a : Analysis) : bool := str_contains "Neg" (str_analysis a).

(** Two loop states with opposite scores and the same match counter. *)
Definition mirrored (st1 st2 : acc) : Prop :=
  a_score st1 = - a_score st2 /\
  a_confidence st1 = a_confidence st2.

Definition mirrored_exc (m1 m2 : exc acc) : Prop :=
  match m1, m2 with
  | Ok st1, Ok st2 => mirrored st1 st2
  | Raise e1, Raise e2 => e1 = e2
  | _, _ => False
  end.

(** No root recorded under ['negative_words'] is a key of the positive
    lexicon. *)
Definition negative_words_ok (positive_dict : gmap string Z)
    (found_features : gmap string (list feat)) : Prop :=
  forall w, FWord w ∈ default [] (found_features !! "negative_words") ->
            positive_dict !! w = None.

End Vocabulary.

Section EvaluatorVocabulary.

Context {ext : Externals}.

(** The entry that [evaluate_model] appends to [predictions] for a test
    case. *)
Definition entry_of (morphology : Morphology)
    (positive_dict negative_dict : gmap string Z)
    (case : string * string) : Prediction :=
  prediction_entry (fst case) (snd case)
    (analysis_of (fst case) morphology positive_dict negative_dict).

End EvaluatorVocabulary.

(** The metrics of [main] as plain values. *)
Definition accuracy_of (results : EvalResults) : Q :=
  let total := DP results + DN results + YP results + YN results in
  if decide (total > 0)
  then (inject_Z (DP results + DN results) / inject_Z total)%Q
  else 0%Q.

Definition precision_of (results : EvalResults) : Q :=
  if decide (DP results + YP results > 0)
  then (inject_Z (DP results) / inject_Z (DP results + YP results))%Q
  else 0%Q.

Definition recall_of (results : EvalResults) : Q :=
  if decide (DP results + YN results > 0)
  then (inject_Z (DP results) / inject_Z (DP results + YN results))%Q
  else 0%Q.

Definition f1_of (precision recall : Q) : Q :=
  if Qlt_le_dec 0 (precision + recall)
  then (2 * precision * recall / (precision + recall))%Q
  else 0%Q.

(** ** Vocabulary of the evaluation run *)

(** The number of elements of a list that pass a boolean test. *)
Definition count_true {A} (f : A -> bool) (l : list A) : Z :=
  Z.of_nat (length (filter (fun x => f x = true) l)).

(** The four buckets of the [if]/[elif] chain, as tests on a prediction
    and a true label. *)
Definition is_DP (prediction : Sentiment) (true_label : string) : bool :=
  bool_decide (prediction = Positive) && bool_decide (true_label = "Pozitif").

Definition is_DN (prediction : Sentiment) (true_label : string) : bool :=
  bool_decide (prediction = Negative) && bool_decide (true_label = "Negatif").

Definition is_YP (prediction : Sentiment) (true_label : string) : bool :=
  (bool_decide (prediction = Positive) && bool_decide (true_label = "Negatif"))
  || (bool_decide (prediction = Neutral) && negb (bool_decide (true_label = "Pozitif"))).

Definition is_YN (prediction : Sentiment) (true_label : string) : bool :=
  (bool_decide (prediction = Negative) && bool_decide (true_label = "Pozitif"))
  || (bool_decide (prediction = Neutral) && bool_decide (true_label = "Pozitif")).

(** A prediction entry without its features. *)
Definition forget_features (p : Prediction) : WrongPrediction :=
  {| wp_text := p_text p;
     wp_true_label := p_true_label p;
     wp_predicted := p_predicted p;
     wp_confidence := p_confidence p |}.

(** A prediction entry that falls in one of the two error buckets. *)
Definition is_wrong (p : Prediction) : bool :=
  is_YP (p_predicted p) (p_true_label p) || is_YN (p_predicted p) (p_true_label p).

Section RunVocabulary.

Context {ext : Externals}.

(** The prediction of [analyze_sentiment] for a test case. *)
Definition predicted_for (morphology : Morphology)
    (positive_dict negative_dict : gmap string Z) (case : string * string)
  : Sentiment :=
  sentiment (analysis_of (fst case) morphology positive_dict negative_dict).

(** The number of test cases that fall in a bucket. *)
Definition count_cases (bucket : Sentiment -> string -> bool)
    (morphology : Morphology) (positive_dict negative_dict : gmap string Z)
    (test_data : list (string * string)) : Z :=
  count_true
    (fun case => bucket (predicted_for morphology positive_dict negative_dict case)
                        (snd case))
    test_data.

End RunVocabulary.

(** A test case that the [if]/[elif] chain counts in no bucket: an Error
    prediction, or a Positive or Negative prediction against a label that
    is neither ["Pozitif"] nor ["Negatif"]. *)
Definition is_dropped (prediction : Sentiment) (true_label : string) : bool :=
  bool_decide (prediction = Error)
  || ((bool_decide (prediction = Positive) || bool_decide (prediction = Negative))
      && negb (bool_decide (true_label = "Pozitif"))
      && negb (bool_decide (true_label = "Negatif"))).

(** ** Vocabulary of a scoring run *)

(** The value of a [defaultdict(list)] key after the words [l] have been
    appended to it one by one: the key stays as it was when [l] is empty. *)
Definition appended (o : option (list feat)) (l : list string)
  : option (list feat) :=
  match l with
  | [] => o
  | _ :: _ => Some (default [] o ++ (FWord <$> l))
  end.

(** The sum of the weights of the roots [l] in the lexicon [d]. *)
Definition weight_sum (d : gmap string Z) (l : list string) : Z :=
  foldr (fun k acc => default 0 (d !! k) + acc) 0 l.

(** The multiplier that goes with a predicate analysis. *)
Definition multiplier_of (predicate_info : option PredicateInfo) : Z :=
  match predicate_info with
  | Some p => if pi_is_negative p then -1 else 1
  | None => 1
  end.

Section ScoringVocabulary.

Context {ext : Externals}.

(** The lexical roots of the analyses whose [item] can be read, in order. *)
Definition item_roots (results : list Analysis) : list string :=
  omap (fun a => match item a with
                 | Ok it => Some (lexical_root it)
                 | Raise _ => None
                 end) results.

(** The roots counted as positive matches, and as negative matches. *)
Definition positive_matches (positive_dict : gmap string Z)
    (results : list Analysis) : list string :=
  filter (fun k => is_Some (positive_dict !! k)) (item_roots results).

Definition negative_matches (positive_dict negative_dict : gmap string Z)
    (results : list Analysis) : list string :=
  filter (fun k => positive_dict !! k = None /\ is_Some (negative_dict !! k))
         (item_roots results).

End ScoringVocabulary.

(** The entry of a word list in the returned features: the key is absent
    when there is no word. *)
Definition words_entry (l : list string) : option (list feat) :=
  match l with
  | [] => None
  | _ :: _ => Some (FWord <$> l)
  end.

(** The entry recorded under ['predicate']. *)
Definition predicate_entry (predicate_info : option PredicateInfo)
  : option (list feat) :=
  (fun p => [FPredicate (pi_root p) (pi_is_negative p) (pi_full_analysis p)])
    <$> predicate_info.

(** A lexicon in which every weight is 1, as [preprocess_txt_words] builds
    them. *)
Definition unit_weights (d : gmap string Z) : Prop :=
  forall k w, d !! k = Some w -> w = 1.

(** ** The lexicon loader of [src/data_preprocessing.py] *)

(** [open(file_path, "r", encoding="utf-8")] followed by the iteration over
    the lines of the file: the lines, or the exception raised while opening
    or reading.  (The source reads the lines one at a time; the exception
    handler discards everything collected so far, so reading them all
    first gives the same result.) *)
Definition FileSystem : Type := string -> exc (list string).

Section Loader.

Context {ext : Externals}.

(** [for result in analysis: root = result.item.root;
     if root: roots.add(root.lower())]. *)
Fixpoint add_roots (analysis : list Analysis) (roots : gset string)
  : exc (gset string) :=
  match analysis with
  | [] => Ok roots
  | result :: rest =>
      it ← item result;
      match root it with
      | Some s =>
          if decide (s = "") then add_roots rest roots
          else add_roots rest (roots ∪ {[lower s]})
      | None => add_roots rest roots
      end
  end.

(** [for line in f: word = line.strip(); if word: ...]. *)
Fixpoint collect_roots (morphology : Morphology) (lines : list string)
    (roots : gset string) : exc (gset string) :=
  match lines with
  | [] => Ok roots
  | line :: rest =>
      let word := strip line in
      if decide (word = "") then collect_roots morphology rest roots
      else
        analysis ← morphology word;
        roots' ← add_roots analysis roots;
        collect_roots morphology rest roots'
  end.

(** The body of the [try] block; [{root: 1 for root in roots}] is
    [gset_to_gmap 1 roots]. *)
Definition preprocess_txt_words_body (open_file : FileSystem)
    (file_path : string) (morphology : Morphology) : exc (gmap string Z) :=
  lines ← open_file file_path;
  roots ← collect_roots morphology lines ∅;
  Ok (gset_to_gmap 1 roots).

(** The [try]/[except] around the body, on a console that accepts every
    text; [preprocess_txt_words_printing] has the console as a parameter. *)
Definition preprocess_txt_words (open_file : FileSystem)
    (file_path : string) (morphology : Morphology) : exc (gmap string Z) :=
  try_except (preprocess_txt_words_body open_file file_path morphology)
             (fun e => Ok ∅).

(** A line of the word file contributes the root [k]: the line is not
    blank, and one analysis of its word has a non-empty root whose
    lowercase form is [k]. *)
Definition line_gives (morphology : Morphology) (line k : string) : Prop :=
  strip line <> "" /\
  exists analysis a it s,
    morphology (strip line) = Ok analysis /\ a ∈ analysis /\
    item a = Ok it /\ root it = Some s /\ s <> "" /\ k = lower s.

(** A line that the loader gets through without an exception. *)
Definition line_ok (morphology : Morphology) (line : string) : Prop :=
  strip line = "" \/
  exists analysis, morphology (strip line) = Ok analysis /\
                   Forall well_formed analysis.

End Loader.

(** A word file for the test doubles. *)
Definition test_files : FileSystem :=
  fun path =>
    if String.eqb path "positive_words.txt" then Ok ["iyi"; ""; "güzel"; "iyi"]
    else if String.eqb path "negative_words.txt" then Ok ["kötü"; "  "]
    else Raise (AdapterError "no such file").

(** ** The interactive loop of [main] *)


Section InteractiveLoop.

Context {ext : Externals}.





End InteractiveLoop.

(** The opposite polarity. *)
Definition flip_sentiment (s : Sentiment) : Sentiment :=
  match s with
  | Positive => Negative
  | Negative => Positive
  | Neutral => Neutral
  | Error => Error
  end.

(** ** Test data *)

Definition test_positive : gmap string Z := {["iyi" := 1]}.
Definition test_negative : gmap string Z := {["kötü" := 1]}.

Definition test_cases : list (string * string) :=
  [("iyi bir film", "Pozitif"); ("kötü bir film", "Negatif");
   ("bir film", "Pozitif")].

Definition test_cases_unlabelled : list (string * string) :=
  [("iyi bir film", "Olumlu"); ("bir film", "Olumlu")].

(** Counters for the metric examples. *)
Definition counts (dp dn yp yn : Z) : EvalResults :=
  {| DP := dp; DN := dn; YP := yp; YN := yn;
     predictions := []; wrong_predictions := [] |}.

(** A sample run of the scorer. *)
Definition sample_sentence : string := "kötü bir film değil".
Definition sample_tokens : list string := ["kötü"; "bir"; "film"; "değil"].
Definition sample_results : list Analysis := map test_analysis sample_tokens.
Definition sample_result : SentimentResult :=
  analysis_of (ext := test_externals) sample_sentence test_morphology
    test_positive test_negative.


(** ** The exception handlers and the console

    The [except] branches of [analyze_sentiment] and of
    [preprocess_txt_words] print the exception before they return their
    fallback value.  [print] encodes the text for the output stream and
    raises [UnicodeEncodeError] when the stream cannot encode it, so the
    handler itself may raise.  The definitions [analyze_sentiment],
    [evaluate_model] and [preprocess_txt_words] above are the functions on
    a console that accepts every text; the definitions below take the
    console as a parameter. *)

(** [print(text)]. *)
Definition Console : Type := string -> exc unit.

(** [str(e)], the text that [{e}] puts in the message. *)
Definition str_exn (e : exn) : string :=
  match e with
  | AttributeError msg => msg
  | ZeroDivisionError => "division by zero"
  | AdapterError msg => msg
  | UnicodeEncodeError => "codec can't encode character"
  end.

Section Printing.

Context {ext : Externals}.

(** [analyze_sentiment] with the handler of lines 104-112:
    [print(f"Error during sentiment analysis: {e}")], then the Error
    result. *)
Definition analyze_sentiment_printing (print : Console) (sentence : string)
    (morphology : Morphology) (positive_dict negative_dict : gmap string Z)
  : exc SentimentResult :=
  try_except
    (analyze_sentiment_body sentence morphology positive_dict negative_dict)
    (fun e =>
       _ ← print (String.append "Error during sentiment analysis: " (str_exn e));
       Ok error_result).

(** The loop of [evaluate_model] over [analyze_sentiment_printing]. *)
Definition evaluate_step_printing (print : Console) (morphology : Morphology)
    (positive_dict negative_dict : gmap string Z)
    (results : EvalResults) (case : string * string) : exc EvalResults :=
  let '(sentence, true_label) := case in
  analysis ← analyze_sentiment_printing print sentence morphology
               positive_dict negative_dict;
  let results := classify results sentence true_label analysis in
  Ok {| DP := DP results; DN := DN results; YP := YP results; YN := YN results;
        predictions :=
          predictions results ++ [prediction_entry sentence true_label analysis];
        wrong_predictions := wrong_predictions results |}.

Fixpoint evaluate_loop_printing (print : Console) (morphology : Morphology)
    (positive_dict negative_dict : gmap string Z)
    (test_data : list (string * string)) (results : EvalResults)
  : exc EvalResults :=
  match test_data with
  | [] => Ok results
  | case :: rest =>
      results' ← evaluate_step_printing print morphology
                   positive_dict negative_dict results case;
      evaluate_loop_printing print morphology positive_dict negative_dict
        rest results'
  end.

Definition evaluate_model_printing (print : Console)
    (test_data : list (string * string)) (morphology : Morphology)
    (positive_dict negative_dict : gmap string Z) : exc EvalResults :=
  evaluate_loop_printing print morphology positive_dict negative_dict
    test_data initial_results.

(** [preprocess_txt_words] with the handler of lines 47-49:
    [print(f"Error processing text file: {e}")], then the empty dict. *)
Definition preprocess_txt_words_printing (print : Console)
    (open_file : FileSystem) (file_path : string) (morphology : Morphology)
  : exc (gmap string Z) :=
  try_except
    (preprocess_txt_words_body open_file file_path morphology)
    (fun e =>
       _ ← print (String.append "Error processing text file: " (str_exn e));
       Ok ∅).

End Printing.

(** Consoles for the examples: one that accepts every text, and one whose
    stream encodes ASCII only. *)
Definition silent_console : Console := fun _ => Ok tt.

Fixpoint is_ascii_text (s : string) : bool :=
  match s with
  | EmptyString => true
  | String c s' => (nat_of_ascii c <? 128)%nat && is_ascii_text s'
  end.

Definition ascii_console : Console :=
  fun text => if is_ascii_text text then Ok tt else Raise UnicodeEncodeError.

(** A morphology whose analysis raises with a Turkish message. *)
Definition failing_morphology_tr : Morphology :=
  fun _ => Raise (AdapterError "çözümleme hatası").


(** * Properties *)

(** ** The exception monad *)

Lemma bind_Ok {A B} (f : A -> exc B) (a : A) : (Ok a ≫= f) = f a.
Proof. reflexivity. Qed.

Lemma bind_Raise {A B} (f : A -> exc B) (e : exn) : (Raise e ≫= f) = Raise e.
Proof. reflexivity. Qed.

Lemma bind_Ok_inv {A B} (m : exc A) (f : A -> exc B) (b : B) :
  (m ≫= f) = Ok b -> exists a, m = Ok a /\ f a = Ok b.
Proof. destruct m as [a|e]; [eauto | discriminate]. Qed.

Section ScorerProperties.

Context {ext : Externals}.

Implicit Types (positive_dict negative_dict : gmap string Z).
Implicit Types (results rs : list Analysis) (st : acc).

(** ** Shape of a run of [analyze_sentiment] *)

Lemma analyze_sentiment_Ok sentence morphology positive_dict negative_dict :
  analyze_sentiment sentence morphology positive_dict negative_dict
  = Ok (analysis_of sentence morphology positive_dict negative_dict).
Proof.
  unfold analyze_sentiment, analysis_of, try_except.
  destruct (analyze_sentiment_body _ _ _ _); reflexivity.
Qed.

Lemma analyze_sentiment_body_run sentence morphology positive_dict negative_dict
    raw_tokens results :
  tokenize (preprocess_text sentence) = Ok raw_tokens ->
  morphology (join " " (tokens_of raw_tokens)) = Ok results ->
  analyze_sentiment_body sentence morphology positive_dict negative_dict
  = score_results (tokens_of raw_tokens) results positive_dict negative_dict.
Proof.
  intros Ht Hm. unfold analyze_sentiment_body.
  rewrite Ht, bind_Ok. cbv zeta. rewrite Hm, bind_Ok. reflexivity.
Qed.

Lemma analyze_sentiment_body_inv sentence morphology positive_dict negative_dict r :
  analyze_sentiment_body sentence morphology positive_dict negative_dict = Ok r ->
  exists raw_tokens results,
    tokenize (preprocess_text sentence) = Ok raw_tokens /\
    morphology (join " " (tokens_of raw_tokens)) = Ok results /\
    score_results (tokens_of raw_tokens) results positive_dict negative_dict = Ok r.
Proof.
  unfold analyze_sentiment_body. intros H.
  apply bind_Ok_inv in H. destruct H as (raw & Hraw & H).
  apply bind_Ok_inv in H. destruct H as (results & Hres & H).
  exists raw, results. auto.
Qed.

Lemma score_results_inv tokens results positive_dict negative_dict r :
  score_results tokens results positive_dict negative_dict = Ok r ->
  exists pm pinfo st,
    find_predicate (rev results) 1 = Ok (pm, pinfo) /\
    score_loop positive_dict negative_dict pm results
      {| a_score := 0; a_confidence := 0; a_features := initial_features pinfo |}
    = Ok st /\
    r = {| sentiment := sentiment_of_score (a_score st);
           score := a_score st;
           confidence := confidence_score (a_confidence st) tokens;
           features := a_features st;
           predicate_analysis := pinfo |}.
Proof.
  unfold score_results. intros H.
  apply bind_Ok_inv in H. destruct H as ([pm pinfo] & Hp & H).
  apply bind_Ok_inv in H. destruct H as (st & Hst & H).
  exists pm, pinfo, st. split; [exact Hp|]. split; [exact Hst|]. congruence.
Qed.

Lemma score_results_run tokens results positive_dict negative_dict pm pinfo st :
  find_predicate (rev results) 1 = Ok (pm, pinfo) ->
  score_loop positive_dict negative_dict pm results
    {| a_score := 0; a_confidence := 0; a_features := initial_features pinfo |}
  = Ok st ->
  score_results tokens results positive_dict negative_dict
  = Ok {| sentiment := sentiment_of_score (a_score st);
          score := a_score st;
          confidence := confidence_score (a_confidence st) tokens;
          features := a_features st;
          predicate_analysis := pinfo |}.
Proof.
  intros Hp Hl. unfold score_results. rewrite Hp, bind_Ok.
  cbv zeta. rewrite Hl, bind_Ok. reflexivity.
Qed.

(** ** The backward scan *)

Lemma find_predicate_well_formed rs pm0 :
  Forall well_formed rs ->
  exists pm pinfo, find_predicate rs pm0 = Ok (pm, pinfo) /\
                   (pm = pm0 \/ pm = -1 * pm0).
Proof.
  induction 1 as [|a rs [it Hit] _ IH]; cbn.
  - eauto.
  - destruct (str_contains "Verb" (str_analysis a)); [|exact IH].
    rewrite Hit, bind_Ok.
    destruct (str_contains "Neg" (str_analysis a)); eauto.
Qed.

Lemma find_predicate_multiplier rs pm0 pm pinfo :
  find_predicate rs pm0 = Ok (pm, pinfo) -> pm = pm0 \/ pm = -1 * pm0.
Proof.
  induction rs as [|a rs IH]; cbn.
  - intros [= <- _]. auto.
  - destruct (str_contains "Verb" (str_analysis a)); [|exact IH].
    intros H. apply bind_Ok_inv in H. destruct H as (it & _ & [= <- _]).
    destruct (str_contains "Neg" (str_analysis a)); auto.
Qed.

(** ** The scoring loop *)

Lemma score_loop_app positive_dict negative_dict pm rs1 rs2 st :
  score_loop positive_dict negative_dict pm (rs1 ++ rs2) st
  = score_loop positive_dict negative_dict pm rs1 st
      ≫= score_loop positive_dict negative_dict pm rs2.
Proof.
  revert st. induction rs1 as [|a rs1 IH]; intros st; cbn.
  - reflexivity.
  - destruct (score_step positive_dict negative_dict pm st a) as [st'|e];
      [rewrite !bind_Ok; apply IH | reflexivity].
Qed.


Lemma unmatched_well_formed positive_dict negative_dict a :
  unmatched positive_dict negative_dict a -> well_formed a.
Proof. intros (it & H & _). exists it. exact H. Qed.

Lemma score_step_unmatched positive_dict negative_dict pm st a :
  unmatched positive_dict negative_dict a ->
  score_step positive_dict negative_dict pm st a = Ok st.
Proof.
  intros (it & Hit & Hp & Hn). unfold score_step.
  rewrite Hit, bind_Ok. cbv zeta. rewrite Hp, Hn. reflexivity.
Qed.

Lemma score_loop_unmatched positive_dict negative_dict pm results st :
  Forall (unmatched positive_dict negative_dict) results ->
  score_loop positive_dict negative_dict pm results st = Ok st.
Proof.
  induction 1 as [|a rs Ha _ IH]; cbn; [reflexivity|].
  rewrite (score_step_unmatched _ _ _ _ _ Ha), bind_Ok. exact IH.
Qed.

Lemma sentiment_of_score_sign z :
  (sentiment_of_score z = Positive <-> z > 0) /\
  (sentiment_of_score z = Negative <-> z < 0) /\
  (sentiment_of_score z = Neutral <-> z = 0) /\
  sentiment_of_score z <> Error.
Proof.
  unfold sentiment_of_score.
  repeat case_decide; repeat split; intros; try discriminate; try lia.
Qed.

Lemma confidence_score_zero tokens : (confidence_score 0 tokens == 0)%Q.
Proof. destruct tokens; reflexivity. Qed.

(** ** Fail-soft contract *)




(** ** Sentiment and score *)

Lemma analyze_sentiment_non_error sentence morphology positive_dict negative_dict r :
  analyze_sentiment sentence morphology positive_dict negative_dict = Ok r ->
  sentiment r <> Error ->
  analyze_sentiment_body sentence morphology positive_dict negative_dict = Ok r.
Proof.
  unfold analyze_sentiment, try_except.
  destruct (analyze_sentiment_body _ _ _ _) as [r'|e]; intros [= <-] Hne;
    [reflexivity | exfalso; apply Hne; reflexivity].
Qed.

(** C6.  In every result of [analyze_sentiment] other than an Error
    result, the sentiment is fixed by the sign of the score: Positive
    iff [score > 0], Negative iff [score < 0], Neutral iff [score = 0]. *)
Theorem sentiment_is_sign_of_score sentence morphology positive_dict negative_dict r :
  analyze_sentiment sentence morphology positive_dict negative_dict = Ok r ->
  sentiment r <> Error ->
  (sentiment r = Positive <-> score r > 0) /\
  (sentiment r = Negative <-> score r < 0) /\
  (sentiment r = Neutral <-> score r = 0).
Proof.
  intros Hr Hne.
  apply analyze_sentiment_non_error in Hr; [|exact Hne].
  apply analyze_sentiment_body_inv in Hr. destruct Hr as (raw & results & _ & _ & Hs).
  apply score_results_inv in Hs. destruct Hs as (pm & pinfo & st & _ & _ & ->).
  cbn. pose proof (sentiment_of_score_sign (a_score st)) as (? & ? & ? & _).
  auto.
Qed.

(** C3.  When the lexical root of no analysis (the root, or else the
    normalized form, lowercased) is a key of either lexicon,
    [analyze_sentiment] returns confidence 0, sentiment Neutral and
    score 0. *)
Theorem no_match_is_neutral sentence morphology positive_dict negative_dict
    raw_tokens results :
  tokenize (preprocess_text sentence) = Ok raw_tokens ->
  morphology (join " " (tokens_of raw_tokens)) = Ok results ->
  Forall (unmatched positive_dict negative_dict) results ->
  exists r,
    analyze_sentiment sentence morphology positive_dict negative_dict = Ok r /\
    (confidence r == 0)%Q /\ sentiment r = Neutral /\ score r = 0.
Proof.
  intros Ht Hm Hun.
  assert (Hwf : Forall well_formed (rev results)).
  { apply Forall_rev. eapply Forall_impl; [exact Hun|].
    intros a. apply unmatched_well_formed. }
  destruct (find_predicate_well_formed _ 1 Hwf) as (pm & pinfo & Hp & _).
  pose proof (score_loop_unmatched positive_dict negative_dict pm results
                {| a_score := 0; a_confidence := 0;
                   a_features := initial_features pinfo |} Hun) as Hl.
  pose proof (score_results_run (tokens_of raw_tokens) _ _ _ _ _ _ Hp Hl) as Hs.
  eexists. split.
  - unfold analyze_sentiment, try_except.
    rewrite (analyze_sentiment_body_run _ _ _ _ _ _ Ht Hm), Hs. reflexivity.
  - cbn. split; [apply confidence_score_zero|]. split; reflexivity.
Qed.

(** ** Negation *)

Lemma score_step_mirrored positive_dict negative_dict st1 st2 a :
  mirrored st1 st2 ->
  mirrored_exc (score_step positive_dict negative_dict (-1) st1 a)
               (score_step positive_dict negative_dict 1 st2 a).
Proof.
  intros (Hs & Hc). unfold score_step.
  destruct (item a) as [it|e]; [rewrite !bind_Ok; cbv zeta | reflexivity].
  destruct (positive_dict !! lexical_root it) as [w|];
    [| destruct (negative_dict !! lexical_root it) as [w|]];
    cbn; unfold mirrored; cbn; split; lia.
Qed.

Lemma score_loop_mirrored positive_dict negative_dict results st1 st2 :
  mirrored st1 st2 ->
  mirrored_exc (score_loop positive_dict negative_dict (-1) results st1)
               (score_loop positive_dict negative_dict 1 results st2).
Proof.
  revert st1 st2. induction results as [|a rs IH]; intros st1 st2 Hm; cbn.
  - exact Hm.
  - pose proof (score_step_mirrored positive_dict negative_dict st1 st2 a Hm) as Hstep.
    destruct (score_step positive_dict negative_dict (-1) st1 a) as [s1|e1];
      destruct (score_step positive_dict negative_dict 1 st2 a) as [s2|e2];
      cbn in Hstep; try contradiction.
    + rewrite !bind_Ok. apply IH, Hstep.
    + rewrite !bind_Raise. exact Hstep.
Qed.

(** The scoring loop reads the analyses only through their [item]. *)
Lemma score_loop_items positive_dict negative_dict pm rs1 rs2 st :
  map item rs1 = map item rs2 ->
  score_loop positive_dict negative_dict pm rs1 st
  = score_loop positive_dict negative_dict pm rs2 st.
Proof.
  revert rs2 st. induction rs1 as [|a rs1 IH]; intros [|b rs2] st H;
    try discriminate; [reflexivity|].
  injection H as Hab Hrest. cbn.
  assert (Hstep : score_step positive_dict negative_dict pm st a
                  = score_step positive_dict negative_dict pm st b).
  { unfold score_step. rewrite Hab. reflexivity. }
  rewrite Hstep.
  destruct (score_step positive_dict negative_dict pm st b) as [st'|e];
    [rewrite !bind_Ok; apply IH, Hrest | reflexivity].
Qed.

(** The multiplier of the scan is [-1] exactly when the predicate found
    is negated. *)
Lemma find_predicate_negated rs pm pinfo :
  find_predicate rs 1 = Ok (pm, pinfo) ->
  (pm = -1 /\ exists p, pinfo = Some p /\ pi_is_negative p = true) \/
  (pm = 1 /\ forall p, pinfo = Some p -> pi_is_negative p = false).
Proof.
  induction rs as [|a rs IH]; cbn.
  - intros [= <- <-]. right. split; [reflexivity | discriminate].
  - destruct (str_contains "Verb" (str_analysis a)); [|exact IH].
    intros H. apply bind_Ok_inv in H. destruct H as (it & _ & H).
    destruct (str_contains "Neg" (str_analysis a)); injection H as <- <-.
    + left. split; [reflexivity|]. eexists. split; reflexivity.
    + right. split; [reflexivity|]. intros p [= <-]. reflexivity.
Qed.

(** The scan stops at the last verb-tagged analysis of the sentence. *)
Lemma find_predicate_last_verb pre a post pm0 :
  is_verb a = true ->
  Forall (fun b => is_verb b = false) post ->
  find_predicate (rev (pre ++ a :: post)) pm0 = find_predicate [a] pm0.
Proof.
  intros Ha Hpost. rewrite rev_app_distr. cbn [rev]. rewrite <- app_assoc.
  apply Forall_rev in Hpost. revert Hpost.
  generalize (rev post) as q. induction q as [|b q IH]; intros Hq.
  - cbn. unfold is_verb in Ha. rewrite Ha. reflexivity.
  - inversion Hq as [|? ? Hb Hq']; subst. cbn.
    unfold is_verb in Hb. rewrite Hb. apply IH, Hq'.
Qed.

(** C4.  Over the same analyses and lexicons the score computed with
    [predicate_multiplier = -1] is the negation of the score computed
    with [predicate_multiplier = +1].  The multiplier is [+1] or [-1],
    that is at most one flip is applied, because the backward scan stops
    at the last verb-tagged analysis of the sentence.  Hence two runs
    over analyses with the same items, one with a negated predicate and
    one without, return opposite scores. *)
Theorem negated_predicate_negates_score positive_dict negative_dict :
  (forall results found_features,
      match score_loop positive_dict negative_dict (-1) results
              {| a_score := 0; a_confidence := 0; a_features := found_features |},
            score_loop positive_dict negative_dict 1 results
              {| a_score := 0; a_confidence := 0; a_features := found_features |}
      with
      | Ok st_neg, Ok st_pos => a_score st_neg = - a_score st_pos
      | Raise _, Raise _ => True
      | _, _ => False
      end)
  /\
  (forall results pm pinfo,
      find_predicate (rev results) 1 = Ok (pm, pinfo) -> pm = 1 \/ pm = -1)
  /\
  (forall pre a post,
      is_verb a = true ->
      Forall (fun b => is_verb b = false) post ->
      find_predicate (rev (pre ++ a :: post)) 1 = find_predicate [a] 1)
  /\
  (forall tokens results_neg results_pos r_neg r_pos,
      map item results_neg = map item results_pos ->
      score_results tokens results_neg positive_dict negative_dict = Ok r_neg ->
      score_results tokens results_pos positive_dict negative_dict = Ok r_pos ->
      (exists p, predicate_analysis r_neg = Some p /\ pi_is_negative p = true) ->
      (forall p, predicate_analysis r_pos = Some p -> pi_is_negative p = false) ->
      score r_neg = - score r_pos).
Proof.
  split; [|split; [|split]].
  - intros results feats.
    pose proof (score_loop_mirrored positive_dict negative_dict results
                  {| a_score := 0; a_confidence := 0; a_features := feats |}
                  {| a_score := 0; a_confidence := 0; a_features := feats |}
                  (conj eq_refl eq_refl)) as H.
    unfold mirrored_exc, mirrored in H.
    destruct (score_loop _ _ (-1) _ _), (score_loop _ _ 1 _ _); tauto.
  - intros results pm pinfo H.
    apply find_predicate_multiplier in H. destruct H as [->| ->]; auto.
  - intros pre a post. apply find_predicate_last_verb.
  - intros tokens rn rp r_neg r_pos Hitems Hn Hp Hneg Hpos.
    apply score_results_inv in Hn. destruct Hn as (pm1 & pi1 & st1 & Hf1 & Hl1 & ->).
    apply score_results_inv in Hp. destruct Hp as (pm2 & pi2 & st2 & Hf2 & Hl2 & ->).
    cbn in *.
    apply find_predicate_negated in Hf1. apply find_predicate_negated in Hf2.
    destruct Hf1 as [[-> _]|[_ Hno]];
      [| destruct Hneg as (p & Hp & Hpn); rewrite (Hno p Hp) in Hpn; discriminate].
    destruct Hf2 as [[_ (p & Hp & Hpn)]|[-> _]];
      [rewrite (Hpos p Hp) in Hpn; discriminate|].
    rewrite (score_loop_items _ _ _ _ _ _ Hitems) in Hl1.
    pose proof (score_loop_mirrored positive_dict negative_dict rp
                  {| a_score := 0; a_confidence := 0;
                     a_features := initial_features pi1 |}
                  {| a_score := 0; a_confidence := 0;
                     a_features := initial_features pi2 |}
                  (conj eq_refl eq_refl)) as H.
    rewrite Hl1, Hl2 in H. exact (proj1 H).
Qed.

(** ** Confidence *)









(** ** The double negative *)

Lemma score_step_negative positive_dict negative_dict pm st a it w :
  item a = Ok it ->
  positive_dict !! lexical_root it = None ->
  negative_dict !! lexical_root it = Some w ->
  score_step positive_dict negative_dict pm st a
  = Ok {| a_score := a_score st + w * pm * -1;
          a_confidence := a_confidence st + 1;
          a_features := dd_append "negative_words" (FWord (lexical_root it))
                                  (a_features st) |}.
Proof.
  intros Hit Hp Hn. unfold score_step.
  rewrite Hit, bind_Ok. cbv zeta. rewrite Hp, Hn. reflexivity.
Qed.

(** C8.  With the negative lexicon [{"kötü": 1}], a sequence of analyses
    in which one lexical root is ["kötü"], no other root is ["kötü"], no
    root is a key of the positive lexicon, and the last analysis is
    tagged both Verb and Neg: the predicate multiplier is [-1], the
    match contributes [1 * (-1) * (-1) = +1], the score is 1 and the
    sentiment is Positive. *)
Theorem double_negative_is_positive sentence morphology positive_dict
    raw_tokens pre k mid last itk :
  tokenize (preprocess_text sentence) = Ok raw_tokens ->
  morphology (join " " (tokens_of raw_tokens)) = Ok (pre ++ k :: mid ++ [last]) ->
  item k = Ok itk ->
  lexical_root itk = "kötü" ->
  positive_dict !! "kötü" = None ->
  Forall (unmatched positive_dict {["kötü" := 1]}) (pre ++ mid ++ [last]) ->
  is_verb last = true ->
  is_neg last = true ->
  exists r p,
    find_predicate (rev (pre ++ k :: mid ++ [last])) 1 = Ok (-1, Some p) /\
    pi_is_negative p = true /\
    score_step positive_dict {["kötü" := 1]} (-1)
      {| a_score := 0; a_confidence := 0; a_features := initial_features (Some p) |} k
    = Ok {| a_score := 0 + 1 * -1 * -1; a_confidence := 0 + 1;
            a_features := dd_append "negative_words" (FWord "kötü")
                                    (initial_features (Some p)) |} /\
    analyze_sentiment sentence morphology positive_dict {["kötü" := 1]} = Ok r /\
    predicate_analysis r = Some p /\
    score r = 1 /\
    sentiment r = Positive.
Proof.
  intros Ht Hm Hk Hroot Hpos Hothers Hverb Hneg.
  set (neg := ({["kötü" := 1]} : gmap string Z)) in *.
  apply Forall_app in Hothers. destruct Hothers as [Hpre Hrest].
  pose proof Hrest as Hrest'. apply Forall_app in Hrest'.
  destruct Hrest' as [_ Hlast]. inversion Hlast as [|? ? Hl _]; subst.
  destruct Hl as (itl & Hitl & _).
  set (p := {| pi_root := root itl; pi_is_negative := true;
               pi_full_analysis := str_analysis last |}).
  assert (Hscan : find_predicate (rev (pre ++ k :: mid ++ [last])) 1
                  = Ok (-1, Some p)).
  { replace (pre ++ k :: mid ++ [last]) with ((pre ++ k :: mid) ++ last :: [])
      by (rewrite <- app_assoc; reflexivity).
    rewrite (find_predicate_last_verb _ last [] 1 Hverb (List.Forall_nil _)).
    cbn. unfold is_verb, is_neg in Hverb, Hneg.
    rewrite Hverb, Hitl, bind_Ok, Hneg. reflexivity. }
  assert (Hnegk : neg !! lexical_root itk = Some 1).
  { rewrite Hroot. apply lookup_singleton_eq. }
  assert (Hposk : positive_dict !! lexical_root itk = None).
  { rewrite Hroot. exact Hpos. }
  assert (Hloop : score_loop positive_dict neg (-1) (pre ++ k :: mid ++ [last])
                    {| a_score := 0; a_confidence := 0;
                       a_features := initial_features (Some p) |}
                  = Ok {| a_score := 0 + 1 * -1 * -1; a_confidence := 0 + 1;
                          a_features := dd_append "negative_words"
                                          (FWord (lexical_root itk))
                                          (initial_features (Some p)) |}).
  { rewrite score_loop_app, (score_loop_unmatched _ _ _ _ _ Hpre), bind_Ok.
    cbn [score_loop].
    rewrite (score_step_negative _ _ _ _ _ _ _ Hk Hposk Hnegk), bind_Ok.
    apply score_loop_unmatched, Hrest. }
  pose proof (score_results_run (tokens_of raw_tokens) _ _ _ _ _ _ Hscan Hloop) as Hs.
  eexists. exists p. split; [exact Hscan|]. split; [reflexivity|].
  split.
  { rewrite (score_step_negative _ _ _ _ _ _ _ Hk Hposk Hnegk), Hroot.
    reflexivity. }
  split.
  { unfold analyze_sentiment, try_except.
    rewrite (analyze_sentiment_body_run _ _ _ _ _ _ Ht Hm), Hs. reflexivity. }
  cbn. repeat split.
Qed.

(** ** Precedence of the positive lexicon *)

Lemma initial_features_negative_words positive_dict pinfo :
  negative_words_ok positive_dict (initial_features pinfo).
Proof.
  intros w. destruct pinfo as [p|]; cbn.
  - rewrite lookup_insert_ne by discriminate. rewrite lookup_empty. cbn.
    intros H. inversion H.
  - rewrite lookup_empty. cbn. intros H. inversion H.
Qed.

Lemma score_step_negative_words positive_dict negative_dict pm st a st' :
  negative_words_ok positive_dict (a_features st) ->
  score_step positive_dict negative_dict pm st a = Ok st' ->
  negative_words_ok positive_dict (a_features st').
Proof.
  intros Hinv H. unfold score_step in H.
  apply bind_Ok_inv in H. destruct H as (it & Hit & H). cbv zeta in H.
  destruct (positive_dict !! lexical_root it) as [w|] eqn:Hp.
  - injection H as <-. cbn. intros w'. unfold dd_append.
    rewrite lookup_insert_ne by discriminate. apply Hinv.
  - destruct (negative_dict !! lexical_root it) as [w|] eqn:Hn.
    + injection H as <-. cbn. intros w'. unfold dd_append.
      rewrite lookup_insert_eq. cbn. intros Hin.
      apply elem_of_app in Hin. destruct Hin as [Hin|Hin]; [apply Hinv, Hin|].
      apply list_elem_of_singleton in Hin. injection Hin as ->. exact Hp.
    + injection H as <-. exact Hinv.
Qed.

Lemma score_loop_negative_words positive_dict negative_dict pm results st st' :
  negative_words_ok positive_dict (a_features st) ->
  score_loop positive_dict negative_dict pm results st = Ok st' ->
  negative_words_ok positive_dict (a_features st').
Proof.
  revert st. induction results as [|a rs IH]; intros st Hinv; cbn [score_loop].
  - intros [= <-]. exact Hinv.
  - intros H. apply bind_Ok_inv in H. destruct H as (st1 & Hstep & H).
    eapply IH; [|exact H]. eapply score_step_negative_words; eassumption.
Qed.

(** C10.  A lexical root that is a key of both lexicons is counted as a
    positive match only: its step adds [weight * predicate_multiplier]
    (with the positive weight) to the score, counts one match, appends
    the root to [features["positive_words"]] and leaves
    [features["negative_words"]] as it was; and the root is never in the
    [features["negative_words"]] of a result. *)
Theorem positive_lookup_takes_precedence sentence morphology
    positive_dict negative_dict r pm st a it w_pos w_neg :
  item a = Ok it ->
  positive_dict !! lexical_root it = Some w_pos ->
  negative_dict !! lexical_root it = Some w_neg ->
  analyze_sentiment sentence morphology positive_dict negative_dict = Ok r ->
  (exists st',
      score_step positive_dict negative_dict pm st a = Ok st' /\
      a_score st' = a_score st + w_pos * pm /\
      a_confidence st' = a_confidence st + 1 /\
      a_features st' !! "positive_words"
      = Some (default [] (a_features st !! "positive_words")
              ++ [FWord (lexical_root it)]) /\
      a_features st' !! "negative_words" = a_features st !! "negative_words") /\
  FWord (lexical_root it) ∉ default [] (features r !! "negative_words").
Proof.
  intros Hit Hp Hn Hr. split.
  - eexists. split.
    + unfold score_step. rewrite Hit, bind_Ok. cbv zeta. rewrite Hp. reflexivity.
    + cbn. unfold dd_append. rewrite lookup_insert_eq.
      rewrite lookup_insert_ne by discriminate. repeat split.
  - intros Hin.
    assert (Hok : negative_words_ok positive_dict (features r)).
    { unfold analyze_sentiment, try_except in Hr.
      destruct (analyze_sentiment_body sentence morphology positive_dict negative_dict)
        as [r'|e] eqn:Hb; injection Hr as <-.
      - apply analyze_sentiment_body_inv in Hb.
        destruct Hb as (raw & results & _ & _ & Hs).
        apply score_results_inv in Hs. destruct Hs as (pm' & pinfo & st' & _ & Hl & ->).
        cbn. eapply score_loop_negative_words; [|exact Hl].
        cbn. apply initial_features_negative_words.
      - intros w. cbn. rewrite lookup_empty. cbn. intros H. inversion H. }
    apply Hok in Hin. congruence.
Qed.

End ScorerProperties.

Section EvaluatorProperties.

Context {ext : Externals}.

Implicit Types (positive_dict negative_dict : gmap string Z).
Implicit Types (results : EvalResults) (test_data : list (string * string)).

(** ** One test case *)

Lemma evaluate_step_Ok morphology positive_dict negative_dict results
    sentence true_label :
  evaluate_step morphology positive_dict negative_dict results (sentence, true_label)
  = let analysis := analysis_of sentence morphology positive_dict negative_dict in
    let results' := classify results sentence true_label analysis in
    Ok {| DP := DP results'; DN := DN results'; YP := YP results'; YN := YN results';
          predictions :=
            predictions results' ++ [prediction_entry sentence true_label analysis];
          wrong_predictions := wrong_predictions results' |}.
Proof.
  unfold evaluate_step. rewrite analyze_sentiment_Ok, bind_Ok. reflexivity.
Qed.

Lemma classify_predictions results sentence true_label analysis :
  predictions (classify results sentence true_label analysis) = predictions results.
Proof.
  unfold classify.
  repeat (match goal with |- context [if ?b then _ else _] => destruct b end);
    reflexivity.
Qed.

(** A prediction outside Positive, Negative and Neutral goes through the
    [if]/[elif] chain without entering a branch. *)
Lemma classify_Error results sentence true_label analysis :
  sentiment analysis = Error ->
  classify results sentence true_label analysis = results.
Proof. intros H. unfold classify. rewrite H. reflexivity. Qed.

Lemma classify_Neutral results sentence true_label analysis :
  sentiment analysis = Neutral ->
  classify results sentence true_label analysis
  = if bool_decide (true_label = "Pozitif") then
      {| DP := DP results; DN := DN results; YP := YP results; YN := YN results + 1;
         predictions := predictions results;
         wrong_predictions :=
           wrong_predictions results ++ [wrong_entry sentence true_label analysis] |}
    else
      {| DP := DP results; DN := DN results; YP := YP results + 1; YN := YN results;
         predictions := predictions results;
         wrong_predictions :=
           wrong_predictions results ++ [wrong_entry sentence true_label analysis] |}.
Proof. intros H. unfold classify. rewrite H. reflexivity. Qed.

(** ** The whole run *)



End EvaluatorProperties.

(** ** Metrics *)

Lemma py_div_Ok (a b : Q) : ~ (b == 0)%Q -> py_div a b = Ok (a / b)%Q.
Proof.
  intros Hb. unfold py_div.
  destruct (Qeq_bool b 0) eqn:E; [|reflexivity].
  apply Qeq_bool_eq in E. contradiction.
Qed.

Lemma inject_Z_pos_nonzero (z : Z) : z > 0 -> ~ (inject_Z z == 0)%Q.
Proof. intros Hz H. unfold Qeq in H. cbn in H. lia. Qed.

Lemma guarded_ratio_Ok (num den : Z) :
  (if decide (den > 0) then py_div (inject_Z num) (inject_Z den) else Ok 0%Q)
  = Ok (if decide (den > 0) then (inject_Z num / inject_Z den)%Q else 0%Q).
Proof.
  case_decide; [|reflexivity].
  apply py_div_Ok, inject_Z_pos_nonzero. assumption.
Qed.

Lemma f1_guard_Ok (precision recall : Q) :
  (if Qlt_le_dec 0 (precision + recall)
   then py_div (2 * precision * recall) (precision + recall)
   else Ok 0%Q)
  = Ok (f1_of precision recall).
Proof.
  unfold f1_of. destruct (Qlt_le_dec 0 (precision + recall)) as [Hlt|Hle];
    [|reflexivity].
  apply py_div_Ok. intros H. rewrite H in Hlt. discriminate.
Qed.

(** The metrics as plain values: each guarded ratio, with 0 in the [else]. *)
Lemma compute_metrics_Ok (results : EvalResults) :
  compute_metrics results
  = Ok {| accuracy := accuracy_of results;
          precision := precision_of results;
          recall := recall_of results;
          f1 := f1_of (precision_of results) (recall_of results) |}.
Proof.
  unfold compute_metrics. cbv zeta.
  rewrite (guarded_ratio_Ok (DP results + DN results)
             (DP results + DN results + YP results + YN results)), bind_Ok.
  rewrite (guarded_ratio_Ok (DP results) (DP results + YP results)), bind_Ok.
  rewrite (guarded_ratio_Ok (DP results) (DP results + YN results)), bind_Ok.
  fold (accuracy_of results) (precision_of results) (recall_of results).
  rewrite f1_guard_Ok, bind_Ok. reflexivity.
Qed.

(** C5.  The metric computation never raises, whatever the counts (in
    particular for all non-negative counts): every ratio is computed only
    under a positive denominator and is 0 otherwise.  When the four counts
    are 0, accuracy, precision, recall and F1 are all 0. *)
Theorem metrics_never_divide_by_zero :
  (forall results, exists m, compute_metrics results = Ok m) /\
  (forall results m,
      compute_metrics results = Ok m ->
      (DP results + DN results + YP results + YN results = 0 -> accuracy m = 0%Q) /\
      (DP results + YP results = 0 -> precision m = 0%Q) /\
      (DP results + YN results = 0 -> recall m = 0%Q) /\
      ((precision m + recall m == 0)%Q -> f1 m = 0%Q)) /\
  (forall results,
      DP results = 0 -> DN results = 0 -> YP results = 0 -> YN results = 0 ->
      compute_metrics results
      = Ok {| accuracy := 0%Q; precision := 0%Q; recall := 0%Q; f1 := 0%Q |}).
Proof.
  split; [|split].
  - intros results. eexists. apply compute_metrics_Ok.
  - intros results m Hm. rewrite compute_metrics_Ok in Hm. injection Hm as <-.
    cbn. unfold accuracy_of, precision_of, recall_of, f1_of.
    repeat split; intros H0.
    + case_decide; [lia | reflexivity].
    + case_decide; [lia | reflexivity].
    + case_decide; [lia | reflexivity].
    + destruct (Qlt_le_dec 0 _) as [Hlt|Hle]; [|reflexivity].
      rewrite H0 in Hlt. discriminate.
  - intros results H1 H2 H3 H4. rewrite compute_metrics_Ok.
    unfold accuracy_of, precision_of, recall_of, f1_of.
    rewrite H1, H2, H3, H4. reflexivity.
Qed.

(** * Concrete runs *)

(** Scenario A: one positive match, no verb. *)
Example scenario_no_negation :
  analyze_sentiment (ext := test_externals) "iyi bir film" test_morphology
    {["iyi" := 1]} ∅
  = Ok {| sentiment := Positive; score := 1; confidence := 1 # 3;
          features := {["positive_words" := [FWord "iyi"]]};
          predicate_analysis := None |}.
Proof. vm_compute. reflexivity. Qed.

(** Scenario B: the negated predicate turns a negative match positive. *)
Example scenario_double_negative :
  analyze_sentiment (ext := test_externals) "kötü bir film değil" test_morphology
    ∅ {["kötü" := 1]}
  = Ok {| sentiment := Positive; score := 1; confidence := 1 # 4;
          features :=
            {["predicate" := [FPredicate (Some "değil") true
                                "[değil:Verb] değil:Verb+Neg+Pres+A3sg"];
              "negative_words" := [FWord "kötü"]]};
          predicate_analysis :=
            Some {| pi_root := Some "değil"; pi_is_negative := true;
                    pi_full_analysis := "[değil:Verb] değil:Verb+Neg+Pres+A3sg" |} |}.
Proof. vm_compute. reflexivity. Qed.

(** Scenario C: evaluation end to end. *)
Example scenario_evaluation :
  evaluate_model (ext := test_externals)
    [("iyi bir film", "Pozitif"); ("kötü bir film", "Negatif")]
    test_morphology {["iyi" := 1]} {["kötü" := 1]}
  ≫= compute_metrics
  = Ok {| accuracy := 2 / 2; precision := 1 / 1; recall := 1 / 1;
          f1 := 2 * (1 / 1) * (1 / 1) / (1 / 1 + 1 / 1) |}%Q.
Proof. vm_compute. reflexivity. Qed.

(** A malformed analysis makes the body raise: the result is the Error
    result. *)
Example malformed_analysis_is_error :
  analyze_sentiment (ext := test_externals) "iyi bir film" malformed_morphology
    {["iyi" := 1]} ∅
  = Ok error_result.
Proof. vm_compute. reflexivity. Qed.

(** A Neutral prediction is counted as incorrect and listed in
    [wrong_predictions]. *)
Example neutral_prediction_is_bucketed :
  evaluate_model (ext := test_externals) [("bir film", "Pozitif")]
    test_morphology {["iyi" := 1]} {["kötü" := 1]}
  = Ok {| DP := 0; DN := 0; YP := 0; YN := 1;
          predictions :=
            [{| p_text := "bir film"; p_true_label := "Pozitif";
                p_predicted := Neutral; p_confidence := 0 # 2; p_features := ∅ |}];
          wrong_predictions :=
            [{| wp_text := "bir film"; wp_true_label := "Pozitif";
                wp_predicted := Neutral; wp_confidence := 0 # 2 |}] |}.
Proof. vm_compute. reflexivity. Qed.

(** An Error prediction changes no counter and adds nothing to
    [wrong_predictions], whatever the true label. *)
Lemma evaluate_step_Error {ext : Externals} morphology
    (positive_dict negative_dict : gmap string Z) results sentence true_label :
  sentiment (analysis_of sentence morphology positive_dict negative_dict) = Error ->
  evaluate_step morphology positive_dict negative_dict results (sentence, true_label)
  = Ok {| DP := DP results; DN := DN results; YP := YP results; YN := YN results;
          predictions :=
            predictions results
            ++ [prediction_entry sentence true_label
                  (analysis_of sentence morphology positive_dict negative_dict)];
          wrong_predictions := wrong_predictions results |}.
Proof.
  intros H. rewrite evaluate_step_Ok. cbv zeta.
  rewrite (classify_Error _ _ _ _ H). reflexivity.
Qed.

(** C1.  The run of [evaluate_model] on one test case labelled "Pozitif"
    whose analysis raises: the prediction is Error, the four counters stay
    0 (YN is not incremented) and [wrong_predictions] stays empty; the case
    appears in [predictions] only. *)
Theorem error_prediction_is_not_bucketed :
  evaluate_model (ext := test_externals) [("iyi bir film", "Pozitif")]
    failing_morphology {["iyi" := 1]} {["kötü" := 1]}
  = Ok {| DP := 0; DN := 0; YP := 0; YN := 0;
          predictions :=
            [{| p_text := "iyi bir film"; p_true_label := "Pozitif";
                p_predicted := Error; p_confidence := 0; p_features := ∅ |}];
          wrong_predictions := [] |}.
Proof. vm_compute. reflexivity. Qed.

(** * The theorems at concrete inputs *)

Lemma no_match_is_neutral_witness :
  exists r,
    analyze_sentiment (ext := test_externals) "bir film" test_morphology
      {["iyi" := 1]} {["kötü" := 1]} = Ok r /\
    (confidence r == 0)%Q /\ sentiment r = Neutral /\ score r = 0.
Proof.
  apply (no_match_is_neutral (ext := test_externals) "bir film" test_morphology
           {["iyi" := 1]} {["kötü" := 1]} ["bir"; "film"]
           [test_analysis "bir"; test_analysis "film"]).
  - vm_compute; reflexivity.
  - vm_compute; reflexivity.
  - repeat constructor; eexists;
      (split; [reflexivity | split; vm_compute; reflexivity]).
Defined.

Lemma negated_predicate_negates_score_witness :
  let verb_only := {| str_analysis := "değil:Verb+Pres+A3sg";
                      item := item (test_analysis "değil") |} in
  exists r_neg r_pos,
    score_results (ext := test_externals) ["kötü"; "değil"]
      [test_analysis "kötü"; test_analysis "değil"] ∅ {["kötü" := 1]} = Ok r_neg /\
    score_results (ext := test_externals) ["kötü"; "değil"]
      [test_analysis "kötü"; verb_only] ∅ {["kötü" := 1]} = Ok r_pos /\
    score r_neg = 1 /\ score r_pos = -1 /\ score r_neg = - score r_pos.
Proof.
  intros verb_only.
  eexists. eexists.
  split; [vm_compute; reflexivity|].
  split; [vm_compute; reflexivity|].
  split; [reflexivity|]. split; [reflexivity|].
  apply (proj2 (proj2 (proj2 (negated_predicate_negates_score
                                (ext := test_externals) ∅ {["kötü" := 1]})))
           ["kötü"; "değil"]
           [test_analysis "kötü"; test_analysis "değil"]
           [test_analysis "kötü"; verb_only]).
  - reflexivity.
  - vm_compute; reflexivity.
  - vm_compute; reflexivity.
  - eexists. split; reflexivity.
  - intros p [= <-]. reflexivity.
Defined.

Lemma sentiment_is_sign_of_score_witness :
  let r := analysis_of (ext := test_externals) "iyi bir film" test_morphology
             {["iyi" := 1]} ∅ in
  sentiment r = Positive /\ score r = 1 /\
  (sentiment r = Positive <-> score r > 0) /\
  (sentiment r = Negative <-> score r < 0) /\
  (sentiment r = Neutral <-> score r = 0).
Proof.
  intros r.
  split; [vm_compute; reflexivity|]. split; [vm_compute; reflexivity|].
  apply (sentiment_is_sign_of_score (ext := test_externals) "iyi bir film"
           test_morphology {["iyi" := 1]} ∅ r).
  - apply analyze_sentiment_Ok.
  - vm_compute. discriminate.
Defined.


Lemma double_negative_is_positive_witness :
  exists r p,
    find_predicate (rev (map test_analysis ["kötü"; "bir"; "film"; "değil"])) 1
    = Ok (-1, Some p) /\
    pi_is_negative p = true /\
    analyze_sentiment (ext := test_externals) "kötü bir film değil" test_morphology
      ∅ {["kötü" := 1]} = Ok r /\
    score r = 1 /\ sentiment r = Positive.
Proof.
  destruct (double_negative_is_positive (ext := test_externals)
              "kötü bir film değil" test_morphology ∅
              ["kötü"; "bir"; "film"; "değil"]
              [] (test_analysis "kötü")
              [test_analysis "bir"; test_analysis "film"] (test_analysis "değil")
              {| root := Some "kötü"; normalized_form := Some "kötü" |})
    as (r & p & Hscan & Hneg & _ & Hrun & _ & Hscore & Hsent).
  - vm_compute; reflexivity.
  - vm_compute; reflexivity.
  - reflexivity.
  - vm_compute; reflexivity.
  - vm_compute; reflexivity.
  - repeat constructor; eexists;
      (split; [reflexivity | split; vm_compute; reflexivity]).
  - vm_compute; reflexivity.
  - vm_compute; reflexivity.
  - exists r, p. repeat split; assumption.
Defined.

Lemma positive_lookup_takes_precedence_witness :
  let r := analysis_of (ext := test_externals) "iyi film" test_morphology
             {["iyi" := 2]} {["iyi" := 5]} in
  score r = 2 /\
  features r = {["positive_words" := [FWord "iyi"]]} /\
  FWord "iyi" ∉ default [] (features r !! "negative_words").
Proof.
  intros r.
  split; [vm_compute; reflexivity|]. split; [vm_compute; reflexivity|].
  apply (positive_lookup_takes_precedence (ext := test_externals) "iyi film"
           test_morphology {["iyi" := 2]} {["iyi" := 5]} r 1
           {| a_score := 0; a_confidence := 0; a_features := ∅ |}
           (test_analysis "iyi")
           {| root := Some "iyi"; normalized_form := Some "iyi" |} 2 5).
  - reflexivity.
  - vm_compute; reflexivity.
  - vm_compute; reflexivity.
  - apply analyze_sentiment_Ok.
Defined.

Lemma metrics_never_divide_by_zero_witness :
  compute_metrics initial_results
  = Ok {| accuracy := 0%Q; precision := 0%Q; recall := 0%Q; f1 := 0%Q |}.
Proof.
  apply (proj2 (proj2 metrics_never_divide_by_zero) initial_results); reflexivity.
Defined.

(** * Further properties of the evaluator *)

Lemma count_true_nil {A} (f : A -> bool) : count_true f [] = 0.
Proof. reflexivity. Qed.

Lemma count_true_cons {A} (f : A -> bool) (x : A) (l : list A) :
  count_true f (x :: l) = (if f x then 1 else 0) + count_true f l.
Proof.
  unfold count_true. destruct (f x) eqn:Hx.
  - rewrite filter_cons_True by exact Hx. cbn [length]. lia.
  - rewrite filter_cons_False by (rewrite Hx; discriminate). lia.
Qed.


Lemma count_true_bounds {A} (f : A -> bool) (l : list A) :
  0 <= count_true f l <= Z.of_nat (length l).
Proof.
  unfold count_true.
  pose proof (length_filter (fun x => f x = true) l). lia.
Qed.

Lemma count_true_Permutation {A} (f : A -> bool) (l1 l2 : list A) :
  l1 ≡ₚ l2 -> count_true f l1 = count_true f l2.
Proof. intros H. unfold count_true. rewrite H. reflexivity. Qed.


Section EvaluatorCounts.

Context {ext : Externals}.

Implicit Types (positive_dict negative_dict : gmap string Z).
Implicit Types (results : EvalResults) (test_data : list (string * string)).

(** The effect of the [if]/[elif] chain on the counters and on
    [wrong_predictions]. *)
Lemma classify_effect results sentence true_label analysis :
  let prediction := sentiment analysis in
  let results' := classify results sentence true_label analysis in
  DP results' = DP results + (if is_DP prediction true_label then 1 else 0) /\
  DN results' = DN results + (if is_DN prediction true_label then 1 else 0) /\
  YP results' = YP results + (if is_YP prediction true_label then 1 else 0) /\
  YN results' = YN results + (if is_YN prediction true_label then 1 else 0) /\
  wrong_predictions results'
  = wrong_predictions results
    ++ (if is_YP prediction true_label || is_YN prediction true_label
        then [wrong_entry sentence true_label analysis] else []).
Proof.
  cbv zeta. unfold classify, is_DP, is_DN, is_YP, is_YN.
  destruct (sentiment analysis); repeat case_bool_decide; subst;
    try discriminate; cbn; rewrite ?app_nil_r; repeat split; lia.
Qed.

Lemma is_wrong_entry_of morphology positive_dict negative_dict case :
  is_wrong (entry_of morphology positive_dict negative_dict case)
  = is_YP (predicted_for morphology positive_dict negative_dict case) (snd case)
    || is_YN (predicted_for morphology positive_dict negative_dict case) (snd case).
Proof. reflexivity. Qed.

(** The loop, from any intermediate [results]. *)
Lemma evaluate_loop_effect morphology positive_dict negative_dict test_data
    results results' :
  evaluate_loop morphology positive_dict negative_dict test_data results
  = Ok results' ->
  DP results'
  = DP results + count_cases is_DP morphology positive_dict negative_dict test_data /\
  DN results'
  = DN results + count_cases is_DN morphology positive_dict negative_dict test_data /\
  YP results'
  = YP results + count_cases is_YP morphology positive_dict negative_dict test_data /\
  YN results'
  = YN results + count_cases is_YN morphology positive_dict negative_dict test_data /\
  predictions results'
  = predictions results
    ++ map (entry_of morphology positive_dict negative_dict) test_data /\
  wrong_predictions results'
  = wrong_predictions results
    ++ map forget_features
         (filter (fun p => is_wrong p = true)
                 (map (entry_of morphology positive_dict negative_dict) test_data)).
Proof.
  revert results. induction test_data as [|[sentence true_label] rest IH];
    intros results; cbn [evaluate_loop].
  - intros [= <-]. unfold count_cases. rewrite !count_true_nil. cbn.
    rewrite !app_nil_r. repeat split; lia.
  - rewrite evaluate_step_Ok. cbv zeta. rewrite bind_Ok. intros H.
    apply IH in H. cbn [DP DN YP YN predictions wrong_predictions] in H.
    destruct H as (Hdp & Hdn & Hyp & Hyn & Hp & Hw).
    pose proof (classify_effect results sentence true_label
                  (analysis_of sentence morphology positive_dict negative_dict))
      as (Cdp & Cdn & Cyp & Cyn & Cw).
    rewrite classify_predictions in Hp.
    unfold count_cases in *. rewrite !count_true_cons.
    unfold predicted_for at 1 3 5 7. cbn [fst snd].
    split; [lia|]. split; [lia|]. split; [lia|]. split; [lia|].
    split.
    + rewrite Hp, <- app_assoc. reflexivity.
    + rewrite Hw, Cw, <- app_assoc. f_equal. cbn [map].
      destruct (is_YP _ true_label || is_YN _ true_label) eqn:Hwrong.
      * rewrite filter_cons_True by (rewrite is_wrong_entry_of; exact Hwrong).
        reflexivity.
      * rewrite filter_cons_False
          by (rewrite is_wrong_entry_of; cbn [fst snd]; unfold predicted_for;
              cbn [fst]; rewrite Hwrong; discriminate).
        reflexivity.
Qed.


Lemma bucket_or_dropped prediction true_label :
  (if is_DP prediction true_label then 1 else 0)
  + (if is_DN prediction true_label then 1 else 0)
  + (if is_YP prediction true_label then 1 else 0)
  + (if is_YN prediction true_label then 1 else 0)
  + (if is_dropped prediction true_label then 1 else 0) = 1.
Proof.
  unfold is_DP, is_DN, is_YP, is_YN, is_dropped.
  destruct prediction; repeat case_bool_decide; subst; cbn;
    try discriminate; try congruence; lia.
Qed.

Lemma count_cases_partition morphology positive_dict negative_dict test_data :
  count_cases is_DP morphology positive_dict negative_dict test_data
  + count_cases is_DN morphology positive_dict negative_dict test_data
  + count_cases is_YP morphology positive_dict negative_dict test_data
  + count_cases is_YN morphology positive_dict negative_dict test_data
  + count_cases is_dropped morphology positive_dict negative_dict test_data
  = Z.of_nat (length test_data).
Proof.
  unfold count_cases. induction test_data as [|case rest IH].
  - rewrite !count_true_nil. reflexivity.
  - rewrite !count_true_cons. cbn [length].
    pose proof (bucket_or_dropped
                  (predicted_for morphology positive_dict negative_dict case)
                  (snd case)).
    lia.
Qed.


(** X3.  When every label is "Pozitif" or "Negatif" and no prediction is
    Error, the four counters add up to the number of test cases. *)
Theorem evaluate_model_total test_data morphology positive_dict negative_dict results :
  Forall (fun case => snd case = "Pozitif" \/ snd case = "Negatif") test_data ->
  Forall (fun case =>
            predicted_for morphology positive_dict negative_dict case <> Error)
         test_data ->
  evaluate_model test_data morphology positive_dict negative_dict = Ok results ->
  DP results + DN results + YP results + YN results = Z.of_nat (length test_data).
Proof.
  intros Hlabels Hpred Hrun.
  apply evaluate_loop_effect in Hrun. cbn in Hrun.
  destruct Hrun as (-> & -> & -> & -> & _).
  pose proof (count_cases_partition morphology positive_dict negative_dict test_data)
    as Hpart.
  assert (Hnone : count_cases is_dropped morphology positive_dict negative_dict
                    test_data = 0).
  { clear Hpart. unfold count_cases.
    induction test_data as [|case rest IH]; [reflexivity|].
    inversion Hlabels as [|? ? Hl Hls]; inversion Hpred as [|? ? Hp Hps]; subst.
    rewrite count_true_cons, (IH Hls Hps).
    unfold is_dropped.
    destruct (predicted_for morphology positive_dict negative_dict case);
      try congruence; destruct Hl as [-> | ->]; reflexivity. }
  lia.
Qed.




(** X7.  The four counters do not depend on the order of the test cases. *)
Theorem evaluate_model_counts_permutation test_data test_data' morphology
    positive_dict negative_dict results results' :
  test_data ≡ₚ test_data' ->
  evaluate_model test_data morphology positive_dict negative_dict = Ok results ->
  evaluate_model test_data' morphology positive_dict negative_dict = Ok results' ->
  DP results = DP results' /\ DN results = DN results' /\
  YP results = YP results' /\ YN results = YN results'.
Proof.
  intros Hperm Hrun Hrun'.
  apply evaluate_loop_effect in Hrun, Hrun'. cbn in Hrun, Hrun'.
  destruct Hrun as (-> & -> & -> & -> & _).
  destruct Hrun' as (-> & -> & -> & -> & _).
  unfold count_cases.
  repeat split; apply count_true_Permutation, Hperm.
Qed.

Lemma unknown_label_buckets prediction true_label :
  true_label <> "Pozitif" -> true_label <> "Negatif" ->
  is_DP prediction true_label = false /\
  is_DN prediction true_label = false /\
  is_YN prediction true_label = false /\
  is_YP prediction true_label = bool_decide (prediction = Neutral).
Proof.
  intros Hp Hn. unfold is_DP, is_DN, is_YN, is_YP.
  rewrite (bool_decide_eq_false_2 _ Hp), (bool_decide_eq_false_2 _ Hn).
  destruct prediction; repeat split.
Qed.

(** X8.  On a data set in which no label is "Pozitif" or "Negatif", DP, DN
    and YN stay 0 and YP is the number of Neutral predictions: Positive
    and Negative predictions against such a label are counted nowhere,
    Neutral ones are counted as YP. *)
Theorem evaluate_model_unknown_labels test_data morphology
    positive_dict negative_dict results :
  Forall (fun case => snd case <> "Pozitif" /\ snd case <> "Negatif") test_data ->
  evaluate_model test_data morphology positive_dict negative_dict = Ok results ->
  DP results = 0 /\ DN results = 0 /\ YN results = 0 /\
  YP results
  = count_true
      (fun case =>
         bool_decide (predicted_for morphology positive_dict negative_dict case
                      = Neutral))
      test_data.
Proof.
  intros Hlabels Hrun.
  apply evaluate_loop_effect in Hrun. cbn in Hrun.
  destruct Hrun as (-> & -> & -> & -> & _).
  unfold count_cases.
  induction Hlabels as [|case rest [Hp Hn] _ IH]; [repeat split|].
  rewrite !count_true_cons.
  destruct IH as (I1 & I2 & I3 & I4).
  destruct (unknown_label_buckets
              (predicted_for morphology positive_dict negative_dict case)
              (snd case) Hp Hn) as (-> & -> & -> & ->).
  destruct (bool_decide _); repeat split; lia.
Qed.

End EvaluatorCounts.

(** * Further properties of the metrics *)

Lemma ratio_bounds (num den : Z) :
  0 <= num <= den -> den > 0 ->
  (0 <= inject_Z num / inject_Z den <= 1)%Q.
Proof.
  intros [H0 H1] Hd.
  assert (Hden : (0 < inject_Z den)%Q) by (unfold Qlt; cbn; lia).
  split.
  - apply Qle_shift_div_l; [exact Hden|]. rewrite Qmult_0_l.
    unfold Qle; cbn; lia.
  - apply Qle_shift_div_r; [exact Hden|]. rewrite Qmult_1_l.
    rewrite <- Zle_Qle. exact H1.
Qed.

Lemma f1_of_bounds (p r : Q) :
  (0 <= p <= 1)%Q -> (0 <= r <= 1)%Q -> (0 <= f1_of p r <= 1)%Q.
Proof.
  intros [Hp0 Hp1] [Hr0 Hr1]. unfold f1_of.
  destruct (Qlt_le_dec 0 (p + r)) as [Hlt|Hle]; [|split; discriminate].
  split.
  - apply Qle_shift_div_l; [exact Hlt|]. nra.
  - apply Qle_shift_div_r; [exact Hlt|]. nra.
Qed.

Lemma compute_metrics_bounds (results : EvalResults) (m : Metrics) :
  0 <= DP results -> 0 <= DN results -> 0 <= YP results -> 0 <= YN results ->
  compute_metrics results = Ok m ->
  (0 <= accuracy m <= 1)%Q /\ (0 <= precision m <= 1)%Q /\
  (0 <= recall m <= 1)%Q /\ (0 <= f1 m <= 1)%Q.
Proof.
  intros Hdp Hdn Hyp Hyn Hm. rewrite compute_metrics_Ok in Hm. injection Hm as <-.
  assert (Ha : (0 <= accuracy_of results <= 1)%Q).
  { unfold accuracy_of. cbv zeta. case_decide; [|split; discriminate].
    apply ratio_bounds; lia. }
  assert (Hp : (0 <= precision_of results <= 1)%Q).
  { unfold precision_of. case_decide; [|split; discriminate].
    apply ratio_bounds; lia. }
  assert (Hr : (0 <= recall_of results <= 1)%Q).
  { unfold recall_of. case_decide; [|split; discriminate].
    apply ratio_bounds; lia. }
  cbn. split; [exact Ha|]. split; [exact Hp|]. split; [exact Hr|].
  apply f1_of_bounds; assumption.
Qed.

(** X9.  For non-negative counters, accuracy, precision, recall and F1 all
    lie in [0,1]. *)
Theorem metrics_in_unit_interval (results : EvalResults) (m : Metrics) :
  0 <= DP results -> 0 <= DN results -> 0 <= YP results -> 0 <= YN results ->
  compute_metrics results = Ok m ->
  (0 <= accuracy m <= 1)%Q /\ (0 <= precision m <= 1)%Q /\
  (0 <= recall m <= 1)%Q /\ (0 <= f1 m <= 1)%Q.
Proof. apply compute_metrics_bounds. Qed.

Lemma inject_Z_nonneg (z : Z) : 0 <= z -> (0 <= inject_Z z)%Q.
Proof. intros H. unfold Qle; cbn; lia. Qed.

Lemma inject_Z_pos (z : Z) : 0 < z -> (0 < inject_Z z)%Q.
Proof. intros H. unfold Qlt; cbn; lia. Qed.

Lemma f1_of_ratios (x y z : Q) :
  (0 < x)%Q -> (0 <= y)%Q -> (0 <= z)%Q ->
  (f1_of (x / (x + y)) (x / (x + z)) == 2 * x / (2 * x + y + z))%Q.
Proof.
  intros Hx Hy Hz.
  assert (Hp : (0 < x / (x + y))%Q) by (apply Qlt_shift_div_l; lra).
  assert (Hr : (0 < x / (x + z))%Q) by (apply Qlt_shift_div_l; lra).
  unfold f1_of.
  destruct (Qlt_le_dec 0 (x / (x + y) + x / (x + z))) as [_|Hle]; [|lra].
  field. repeat split; intros H; nra.
Qed.

Lemma f1_of_counts (results : EvalResults) (m : Metrics) :
  0 < DP results -> 0 <= YP results -> 0 <= YN results ->
  compute_metrics results = Ok m ->
  (f1 m == inject_Z (2 * DP results)
           / inject_Z (2 * DP results + YP results + YN results))%Q.
Proof.
  intros Hdp Hyp Hyn Hm. rewrite compute_metrics_Ok in Hm. injection Hm as <-.
  cbn [f1]. unfold precision_of, recall_of.
  destruct (decide (DP results + YP results > 0)) as [_|]; [|lia].
  destruct (decide (DP results + YN results > 0)) as [_|]; [|lia].
  rewrite !inject_Z_plus, !inject_Z_mult.
  apply f1_of_ratios;
    [apply inject_Z_pos | apply inject_Z_nonneg | apply inject_Z_nonneg]; assumption.
Qed.

(** X11.  Without a true positive, precision, recall and F1 are 0 whatever
    the other counters; in particular when every prediction is a correct
    Negative one, accuracy is 1 while precision, recall and F1 are 0. *)
Theorem metrics_without_true_positive (results : EvalResults) (m : Metrics) :
  DP results = 0 ->
  compute_metrics results = Ok m ->
  (precision m == 0)%Q /\ (recall m == 0)%Q /\ f1 m = 0%Q /\
  (0 < DN results -> YP results = 0 -> YN results = 0 -> (accuracy m == 1)%Q).
Proof.
  intros Hdp Hm. rewrite compute_metrics_Ok in Hm. injection Hm as <-. cbn.
  assert (Hp : (precision_of results == 0)%Q).
  { unfold precision_of. rewrite Hdp. case_decide; reflexivity. }
  assert (Hr : (recall_of results == 0)%Q).
  { unfold recall_of. rewrite Hdp. case_decide; reflexivity. }
  split; [exact Hp|]. split; [exact Hr|]. split.
  - unfold f1_of.
    destruct (Qlt_le_dec 0 (precision_of results + recall_of results)) as [Hlt|_];
      [|reflexivity].
    rewrite Hp, Hr in Hlt. discriminate.
  - intros Hdn Hyp Hyn. unfold accuracy_of. cbv zeta. rewrite Hdp, Hyp, Hyn.
    case_decide; [|lia].
    replace (0 + DN results + 0 + 0) with (DN results) by lia.
    replace (0 + DN results) with (DN results) by lia.
    apply Qmult_inv_r. intros Hzero. pose proof (inject_Z_pos _ Hdn). lra.
Qed.

(** X12.  When no prediction is wrong (YP = YN = 0) and there is at least
    one true positive, accuracy, precision, recall and F1 are all 1. *)
Theorem metrics_of_perfect_run (results : EvalResults) (m : Metrics) :
  0 < DP results -> 0 <= DN results -> YP results = 0 -> YN results = 0 ->
  compute_metrics results = Ok m ->
  (accuracy m == 1)%Q /\ (precision m == 1)%Q /\ (recall m == 1)%Q /\
  (f1 m == 1)%Q.
Proof.
  intros Hdp Hdn Hyp Hyn Hm.
  pose proof (inject_Z_pos _ Hdp) as Hx.
  pose proof (inject_Z_nonneg _ Hdn) as Hn.
  assert (Hf : (f1 m == 1)%Q).
  { rewrite (f1_of_counts results m Hdp ltac:(lia) ltac:(lia) Hm), Hyp, Hyn.
    replace (2 * DP results + 0 + 0) with (2 * DP results) by lia.
    apply Qmult_inv_r. rewrite inject_Z_mult. change (inject_Z 2) with 2%Q.
    intros Hzero. lra. }
  split; [|split; [|split; [|exact Hf]]]; clear Hf;
    rewrite compute_metrics_Ok in Hm; injection Hm as <-;
    cbn [accuracy precision recall];
    unfold accuracy_of, precision_of, recall_of; cbv zeta;
    rewrite ?Hyp, ?Hyn; (case_decide; [|lia]).
  - replace (DP results + DN results + 0 + 0) with (DP results + DN results) by lia.
    apply Qmult_inv_r. rewrite inject_Z_plus. intros Hzero. lra.
  - replace (DP results + 0) with (DP results) by lia.
    apply Qmult_inv_r. intros Hzero. lra.
  - replace (DP results + 0) with (DP results) by lia.
    apply Qmult_inv_r. intros Hzero. lra.
Qed.

(** * Further properties of the scorer *)

Lemma appended_snoc (o : option (list feat)) (k : string) (l : list string) :
  appended (Some (default [] o ++ [FWord k])) l = appended o (k :: l).
Proof.
  destruct l as [|k' l]; cbn; [reflexivity|].
  rewrite <- app_assoc. reflexivity.
Qed.

Lemma weight_sum_cons (d : gmap string Z) (k : string) (l : list string) :
  weight_sum d (k :: l) = default 0 (d !! k) + weight_sum d l.
Proof. reflexivity. Qed.

Section ScoringRun.

Context {ext : Externals}.

Implicit Types (positive_dict negative_dict : gmap string Z).
Implicit Types (results rs : list Analysis) (st : acc).

(** The three outcomes of one iteration of the scoring loop. *)
Lemma score_step_cases positive_dict negative_dict pm st a st' :
  score_step positive_dict negative_dict pm st a = Ok st' ->
  exists it,
    item a = Ok it /\
    ((exists w, positive_dict !! lexical_root it = Some w /\
                st' = {| a_score := a_score st + w * pm;
                         a_confidence := a_confidence st + 1;
                         a_features := dd_append "positive_words"
                                         (FWord (lexical_root it)) (a_features st) |})
     \/
     (exists w, positive_dict !! lexical_root it = None /\
                negative_dict !! lexical_root it = Some w /\
                st' = {| a_score := a_score st + w * pm * -1;
                         a_confidence := a_confidence st + 1;
                         a_features := dd_append "negative_words"
                                         (FWord (lexical_root it)) (a_features st) |})
     \/
     (positive_dict !! lexical_root it = None /\
      negative_dict !! lexical_root it = None /\ st' = st)).
Proof.
  unfold score_step. intros H.
  apply bind_Ok_inv in H. destruct H as (it & Hit & H). cbv zeta in H.
  exists it. split; [exact Hit|].
  destruct (positive_dict !! lexical_root it) as [w|] eqn:Hp.
  - left. exists w. split; [reflexivity | congruence].
  - destruct (negative_dict !! lexical_root it) as [w|] eqn:Hn.
    + right; left. exists w. repeat split; congruence.
    + right; right. repeat split; congruence.
Qed.

Lemma item_roots_cons a it rs :
  item a = Ok it -> item_roots (a :: rs) = lexical_root it :: item_roots rs.
Proof. intros H. unfold item_roots. cbn. rewrite H. reflexivity. Qed.

(** What the scoring loop adds to a state. *)
Lemma score_loop_effect positive_dict negative_dict pm results st st' :
  score_loop positive_dict negative_dict pm results st = Ok st' ->
  a_score st'
  = a_score st
    + pm * (weight_sum positive_dict (positive_matches positive_dict results)
            - weight_sum negative_dict
                (negative_matches positive_dict negative_dict results)) /\
  a_features st' !! "positive_words"
  = appended (a_features st !! "positive_words")
             (positive_matches positive_dict results) /\
  a_features st' !! "negative_words"
  = appended (a_features st !! "negative_words")
             (negative_matches positive_dict negative_dict results) /\
  (forall k, k <> "positive_words" -> k <> "negative_words" ->
             a_features st' !! k = a_features st !! k) /\
  length (item_roots results) = length results.
Proof.
  revert st. induction results as [|a rs IH]; intros st; cbn [score_loop].
  - intros [= <-]. cbn. repeat split; lia.
  - intros H. apply bind_Ok_inv in H. destruct H as (st1 & Hstep & H).
    apply IH in H. destruct H as (Hs & Hpw & Hnw & Hk & Hlen).
    apply score_step_cases in Hstep. destruct Hstep as (it & Hit & Hcase).
    unfold positive_matches, negative_matches in *.
    rewrite (item_roots_cons _ _ _ Hit). cbn [length]. rewrite Hlen.
    destruct Hcase as [(w & Hp & ->) | [(w & Hp & Hn & ->) | (Hp & Hn & ->)]];
      cbn [a_score a_features] in *.
    + rewrite filter_cons_True by (rewrite Hp; eauto).
      rewrite (filter_cons_False _ (lexical_root it))
        by (intros [Hnone _]; congruence).
      rewrite weight_sum_cons, Hp. change (default 0 (Some w)) with w.
      unfold dd_append in *.
      rewrite lookup_insert_eq in Hpw.
      rewrite lookup_insert_ne in Hnw by discriminate.
      rewrite appended_snoc in Hpw.
      split; [rewrite Hs; lia|]. split; [exact Hpw|]. split; [exact Hnw|].
      split; [|reflexivity].
      intros k Hk1 Hk2. rewrite (Hk k Hk1 Hk2).
      apply lookup_insert_ne. congruence.
    + rewrite filter_cons_False by (rewrite Hp; intros [? ?]; discriminate).
      rewrite (filter_cons_True _ (lexical_root it)) by (split; [exact Hp | eauto]).
      rewrite weight_sum_cons, Hn. change (default 0 (Some w)) with w.
      unfold dd_append in *.
      rewrite lookup_insert_eq in Hnw.
      rewrite lookup_insert_ne in Hpw by discriminate.
      rewrite appended_snoc in Hnw.
      split; [rewrite Hs; lia|]. split; [exact Hpw|]. split; [exact Hnw|].
      split; [|reflexivity].
      intros k Hk1 Hk2. rewrite (Hk k Hk1 Hk2).
      apply lookup_insert_ne. congruence.
    + rewrite filter_cons_False by (rewrite Hp; intros [? ?]; discriminate).
      rewrite (filter_cons_False _ (lexical_root it))
        by (rewrite Hn; intros [_ [? ?]]; discriminate).
      repeat split; assumption.
Qed.

Lemma appended_None (l : list string) : appended None l = words_entry l.
Proof. destruct l; reflexivity. Qed.

Lemma find_predicate_multiplier_of rs pm pinfo :
  find_predicate rs 1 = Ok (pm, pinfo) -> pm = multiplier_of pinfo.
Proof.
  intros H. apply find_predicate_negated in H.
  destruct H as [[-> (p & -> & Hp)] | [-> Hno]]; unfold multiplier_of.
  - rewrite Hp. reflexivity.
  - destruct pinfo as [p|]; [|reflexivity]. rewrite (Hno p eq_refl). reflexivity.
Qed.

(** A run of [analyze_sentiment] that does not end in the Error result. *)
Lemma analyze_sentiment_run_inv sentence morphology positive_dict negative_dict
    raw_tokens results r :
  tokenize (preprocess_text sentence) = Ok raw_tokens ->
  morphology (join " " (tokens_of raw_tokens)) = Ok results ->
  analyze_sentiment sentence morphology positive_dict negative_dict = Ok r ->
  sentiment r <> Error ->
  exists pinfo st,
    find_predicate (rev results) 1 = Ok (multiplier_of pinfo, pinfo) /\
    score_loop positive_dict negative_dict (multiplier_of pinfo) results
      {| a_score := 0; a_confidence := 0; a_features := initial_features pinfo |}
    = Ok st /\
    r = {| sentiment := sentiment_of_score (a_score st);
           score := a_score st;
           confidence := confidence_score (a_confidence st) (tokens_of raw_tokens);
           features := a_features st;
           predicate_analysis := pinfo |}.
Proof.
  intros Ht Hm Hr Hne.
  apply analyze_sentiment_non_error in Hr; [|exact Hne].
  rewrite (analyze_sentiment_body_run _ _ _ _ _ _ Ht Hm) in Hr.
  apply score_results_inv in Hr. destruct Hr as (pm & pinfo & st & Hf & Hl & ->).
  pose proof (find_predicate_multiplier_of _ _ _ Hf) as ->.
  exists pinfo, st. auto.
Qed.

Lemma initial_features_lookup pinfo k :
  initial_features pinfo !! k
  = if decide (k = "predicate") then predicate_entry pinfo else None.
Proof.
  destruct pinfo as [p|]; cbn.
  - case_decide as Hk.
    + subst. apply lookup_insert_eq.
    + rewrite lookup_insert_ne by congruence. apply lookup_empty.
  - rewrite lookup_empty. case_decide; reflexivity.
Qed.

(** X13.  The features of a non-Error result: ["positive_words"] holds, in
    sentence order, the lexical roots that are keys of the positive
    lexicon; ["negative_words"] those that are keys of the negative lexicon
    only; each key is absent when its list would be empty; ["predicate"] is
    present exactly when a predicate was found, with one entry that repeats
    [predicate_analysis]; there is no other key. *)
Theorem features_of_result sentence morphology positive_dict negative_dict
    raw_tokens results r :
  tokenize (preprocess_text sentence) = Ok raw_tokens ->
  morphology (join " " (tokens_of raw_tokens)) = Ok results ->
  analyze_sentiment sentence morphology positive_dict negative_dict = Ok r ->
  sentiment r <> Error ->
  features r !! "positive_words"
  = words_entry (positive_matches positive_dict results) /\
  features r !! "negative_words"
  = words_entry (negative_matches positive_dict negative_dict results) /\
  features r !! "predicate" = predicate_entry (predicate_analysis r) /\
  (forall k, k <> "positive_words" -> k <> "negative_words" -> k <> "predicate" ->
             features r !! k = None).
Proof.
  intros Ht Hm Hr Hne.
  destruct (analyze_sentiment_run_inv _ _ _ _ _ _ _ Ht Hm Hr Hne)
    as (pinfo & st & _ & Hl & ->).
  apply score_loop_effect in Hl. cbn [a_features a_score] in Hl.
  destruct Hl as (_ & Hpw & Hnw & Hk & _). cbn [features predicate_analysis].
  rewrite initial_features_lookup in Hpw, Hnw.
  rewrite decide_False in Hpw by discriminate.
  rewrite decide_False in Hnw by discriminate.
  rewrite appended_None in Hpw, Hnw.
  split; [exact Hpw|]. split; [exact Hnw|]. split.
  - rewrite Hk by discriminate. rewrite initial_features_lookup.
    rewrite decide_True by reflexivity. reflexivity.
  - intros k H1 H2 H3. rewrite (Hk k H1 H2), initial_features_lookup.
    rewrite decide_False by exact H3. reflexivity.
Qed.

(** X14.  The score of a non-Error result is the multiplier of the
    predicate (-1 for a negated predicate, +1 otherwise) times the
    difference between the summed weights of the positive matches and the
    summed weights of the negative matches. *)
Theorem score_closed_form sentence morphology positive_dict negative_dict
    raw_tokens results r :
  tokenize (preprocess_text sentence) = Ok raw_tokens ->
  morphology (join " " (tokens_of raw_tokens)) = Ok results ->
  analyze_sentiment sentence morphology positive_dict negative_dict = Ok r ->
  sentiment r <> Error ->
  score r
  = multiplier_of (predicate_analysis r)
    * (weight_sum positive_dict (positive_matches positive_dict results)
       - weight_sum negative_dict
           (negative_matches positive_dict negative_dict results)).
Proof.
  intros Ht Hm Hr Hne.
  destruct (analyze_sentiment_run_inv _ _ _ _ _ _ _ Ht Hm Hr Hne)
    as (pinfo & st & _ & Hl & ->).
  apply score_loop_effect in Hl. destruct Hl as (Hs & _).
  cbn [score predicate_analysis]. rewrite Hs. cbn [a_score]. lia.
Qed.

Lemma score_loop_Ok_well_formed positive_dict negative_dict pm results st st' :
  score_loop positive_dict negative_dict pm results st = Ok st' ->
  Forall well_formed results.
Proof.
  revert st. induction results as [|a rs IH]; intros st; cbn [score_loop].
  - constructor.
  - intros H. apply bind_Ok_inv in H. destruct H as (st1 & Hstep & H).
    apply score_step_cases in Hstep. destruct Hstep as (it & Hit & _).
    constructor; [exists it; exact Hit | eapply IH, H].
Qed.

Lemma match_count_lists positive_dict negative_dict results :
  Forall well_formed results ->
  match_count positive_dict negative_dict results
  = (length (positive_matches positive_dict results)
     + length (negative_matches positive_dict negative_dict results))%nat.
Proof.
  unfold match_count, positive_matches, negative_matches.
  induction 1 as [|a rs [it Hit] _ IH]; [reflexivity|].
  rewrite (item_roots_cons _ _ _ Hit).
  destruct (positive_dict !! lexical_root it) as [w|] eqn:Hp.
  - rewrite filter_cons_True
      by (unfold is_match; rewrite Hit; apply bool_decide_eq_true_2; left;
          rewrite Hp; eauto).
    rewrite (filter_cons_True _ (lexical_root it)) by (rewrite Hp; eauto).
    rewrite (filter_cons_False _ (lexical_root it))
      by (intros [Hnone _]; congruence).
    cbn [length]. rewrite IH. lia.
  - destruct (negative_dict !! lexical_root it) as [w|] eqn:Hn.
    + rewrite filter_cons_True
        by (unfold is_match; rewrite Hit; apply bool_decide_eq_true_2; right;
            rewrite Hn; eauto).
      rewrite (filter_cons_False _ (lexical_root it))
        by (rewrite Hp; intros [? ?]; discriminate).
      rewrite (filter_cons_True _ (lexical_root it)) by (split; [exact Hp|]; rewrite Hn; eauto).
      cbn [length]. rewrite IH. lia.
    + rewrite filter_cons_False
        by (unfold is_match; rewrite Hit, Hp, Hn;
            rewrite bool_decide_eq_false_2;
            [discriminate | intros [[? ?]|[? ?]]; discriminate]).
      rewrite (filter_cons_False _ (lexical_root it))
        by (rewrite Hp; intros [? ?]; discriminate).
      rewrite (filter_cons_False _ (lexical_root it))
        by (rewrite Hn; intros [_ [? ?]]; discriminate).
      exact IH.
Qed.

Lemma weight_sum_unit (d : gmap string Z) (l : list string) :
  unit_weights d -> Forall (fun k => is_Some (d !! k)) l ->
  weight_sum d l = Z.of_nat (length l).
Proof.
  intros Hu. induction 1 as [|k l [w Hw] _ IH]; [reflexivity|].
  rewrite weight_sum_cons, IH, Hw, (Hu k w Hw).
  change (default 0 (Some 1)) with 1. cbn [length]. lia.
Qed.

Lemma positive_matches_in_lexicon positive_dict results :
  Forall (fun k => is_Some (positive_dict !! k))
         (positive_matches positive_dict results).
Proof.
  apply Forall_forall. intros k Hk. unfold positive_matches in Hk.
  apply list_elem_of_filter in Hk. tauto.
Qed.

Lemma negative_matches_in_lexicon positive_dict negative_dict results :
  Forall (fun k => is_Some (negative_dict !! k))
         (negative_matches positive_dict negative_dict results).
Proof.
  apply Forall_forall. intros k Hk. unfold negative_matches in Hk.
  apply list_elem_of_filter in Hk. tauto.
Qed.

Lemma multiplier_of_cases pinfo : multiplier_of pinfo = 1 \/ multiplier_of pinfo = -1.
Proof.
  destruct pinfo as [p|]; unfold multiplier_of; [|auto].
  destruct (pi_is_negative p); auto.
Qed.

(** X15.  With lexicons whose weights are all 1, the score of a non-Error
    result is plus or minus the number of positive matches minus the
    number of negative matches; its absolute value is at most the number
    of lexicon matches; and the sentiment is Neutral exactly when the
    positive and the negative matches are equally many, whatever the
    confidence. *)
Theorem unit_weight_score sentence morphology positive_dict negative_dict
    raw_tokens results r :
  unit_weights positive_dict -> unit_weights negative_dict ->
  tokenize (preprocess_text sentence) = Ok raw_tokens ->
  morphology (join " " (tokens_of raw_tokens)) = Ok results ->
  analyze_sentiment sentence morphology positive_dict negative_dict = Ok r ->
  sentiment r <> Error ->
  let n_pos := Z.of_nat (length (positive_matches positive_dict results)) in
  let n_neg :=
    Z.of_nat (length (negative_matches positive_dict negative_dict results)) in
  score r = multiplier_of (predicate_analysis r) * (n_pos - n_neg) /\
  Z.abs (score r) <= Z.of_nat (match_count positive_dict negative_dict results) /\
  Z.of_nat (match_count positive_dict negative_dict results) = n_pos + n_neg /\
  (sentiment r = Neutral <-> n_pos = n_neg).
Proof.
  intros Hup Hun Ht Hm Hr Hne n_pos n_neg.
  destruct (analyze_sentiment_run_inv _ _ _ _ _ _ _ Ht Hm Hr Hne)
    as (pinfo & st & _ & Hl & ->).
  pose proof (score_loop_effect _ _ _ _ _ _ Hl) as (Hs & _).
  cbn [a_score] in Hs.
  rewrite (weight_sum_unit _ _ Hup (positive_matches_in_lexicon _ _)) in Hs.
  rewrite (weight_sum_unit _ _ Hun (negative_matches_in_lexicon _ _ _)) in Hs.
  fold n_pos n_neg in Hs. cbn [score sentiment predicate_analysis].
  pose proof (sentiment_of_score_sign (a_score st)) as (_ & _ & Hneutral & _).
  apply score_loop_Ok_well_formed in Hl.
  pose proof (match_count_lists positive_dict negative_dict results Hl) as Hc.
  assert (Hcz : Z.of_nat (match_count positive_dict negative_dict results)
                = n_pos + n_neg) by (unfold n_pos, n_neg; lia).
  destruct (multiplier_of_cases pinfo) as [Hmul|Hmul];
    rewrite Hmul in Hs; (split; [rewrite Hmul; lia|]);
    (split; [lia|]); (split; [exact Hcz|]); rewrite Hneutral; lia.
Qed.

(** The scan, in the order in which it visits the analyses. *)
Lemma find_predicate_spec rs pm0 pm pinfo :
  find_predicate rs pm0 = Ok (pm, pinfo) ->
  match pinfo with
  | None => Forall (fun a => is_verb a = false) rs
  | Some p =>
      exists pre a post it,
        rs = pre ++ a :: post /\
        Forall (fun b => is_verb b = false) pre /\
        is_verb a = true /\
        item a = Ok it /\
        p = {| pi_root := root it; pi_is_negative := is_neg a;
               pi_full_analysis := str_analysis a |}
  end.
Proof.
  induction rs as [|a rs IH]; cbn [find_predicate].
  - intros [= _ <-]. constructor.
  - cbv zeta. destruct (str_contains "Verb" (str_analysis a)) eqn:Hv.
    + intros H. apply bind_Ok_inv in H. destruct H as (it & Hit & [= _ <-]).
      exists [], a, rs, it. repeat split; auto.
    + intros H. specialize (IH H). destruct pinfo as [p|].
      * destruct IH as (pre & b & post & it & -> & Hpre & Hb & Hit & ->).
        exists (a :: pre), b, post, it. repeat split; auto.
      * constructor; assumption.
Qed.

(** X17.  The predicate of a non-Error result is the last verb-tagged
    analysis of the sentence: [predicate_analysis] is [None] exactly when
    no analysis is verb-tagged; otherwise it holds the raw root of that
    analysis (not lowercased, without the fallback to the normalized
    form), whether its text contains "Neg", and its text. *)
Theorem predicate_analysis_is_last_verb sentence morphology
    positive_dict negative_dict raw_tokens results r :
  tokenize (preprocess_text sentence) = Ok raw_tokens ->
  morphology (join " " (tokens_of raw_tokens)) = Ok results ->
  analyze_sentiment sentence morphology positive_dict negative_dict = Ok r ->
  sentiment r <> Error ->
  match predicate_analysis r with
  | None => Forall (fun a => is_verb a = false) results
  | Some p =>
      exists before a after it,
        results = before ++ a :: after /\
        is_verb a = true /\
        Forall (fun b => is_verb b = false) after /\
        item a = Ok it /\
        p = {| pi_root := root it; pi_is_negative := is_neg a;
               pi_full_analysis := str_analysis a |}
  end.
Proof.
  intros Ht Hm Hr Hne.
  destruct (analyze_sentiment_run_inv _ _ _ _ _ _ _ Ht Hm Hr Hne)
    as (pinfo & st & Hf & _ & ->).
  cbn [predicate_analysis]. apply find_predicate_spec in Hf.
  destruct pinfo as [p|].
  - destruct Hf as (pre & a & post & it & Hrev & Hpre & Ha & Hit & ->).
    exists (rev post), a, (rev pre), it.
    split.
    + rewrite <- (rev_involutive results), Hrev, rev_app_distr. cbn [rev].
      rewrite <- app_assoc. reflexivity.
    + repeat split; auto. apply Forall_rev. exact Hpre.
  - rewrite <- (rev_involutive results). apply Forall_rev. exact Hf.
Qed.

End ScoringRun.

(** * Properties of the lexicon loader *)

Section LoaderProperties.

Context {ext : Externals}.

Implicit Types (roots : gset string) (morphology : Morphology).

Lemma add_roots_spec analysis roots roots' :
  add_roots analysis roots = Ok roots' ->
  Forall well_formed analysis /\
  forall k, k ∈ roots' <->
            k ∈ roots \/
            exists a it s, a ∈ analysis /\ item a = Ok it /\
                           root it = Some s /\ s <> "" /\ k = lower s.
Proof.
  revert roots. induction analysis as [|a rest IH]; intros roots; cbn [add_roots].
  - intros [= <-]. split; [constructor|]. intros k. split; [auto|].
    intros [H | (a & it & s & Hin & _)]; [exact H | inversion Hin].
  - intros H. apply bind_Ok_inv in H. destruct H as (it & Hit & H).
    assert (Hwf : well_formed a) by (exists it; exact Hit).
    destruct (root it) as [s|] eqn:Hroot; [destruct (decide (s = "")) as [Hs|Hs]|];
      apply IH in H; destruct H as [Hrest Hk];
      (split; [constructor; assumption|]); intros k; rewrite Hk; clear Hk.
    + split.
      * intros [H | (b & itb & sb & Hin & Hb)]; [auto|].
        right. exists b, itb, sb. split; [apply elem_of_cons; auto | exact Hb].
      * intros [H | (b & itb & sb & Hin & Hitb & Hrb & Hsb & Hkb)]; [auto|].
        apply elem_of_cons in Hin. destruct Hin as [-> | Hin].
        -- rewrite Hit in Hitb. injection Hitb as <-. congruence.
        -- right. exists b, itb, sb. auto.
    + rewrite elem_of_union, elem_of_singleton. split.
      * intros [[H | ->] | (b & itb & sb & Hin & Hb)]; [auto | |].
        -- right. exists a, it, s. repeat split; auto. apply elem_of_cons; auto.
        -- right. exists b, itb, sb. split; [apply elem_of_cons; auto | exact Hb].
      * intros [H | (b & itb & sb & Hin & Hitb & Hrb & Hsb & Hkb)]; [auto|].
        apply elem_of_cons in Hin. destruct Hin as [-> | Hin].
        -- rewrite Hit in Hitb. injection Hitb as <-.
           rewrite Hroot in Hrb. injection Hrb as <-. auto.
        -- right. exists b, itb, sb. auto.
    + split.
      * intros [H | (b & itb & sb & Hin & Hb)]; [auto|].
        right. exists b, itb, sb. split; [apply elem_of_cons; auto | exact Hb].
      * intros [H | (b & itb & sb & Hin & Hitb & Hrb & Hsb & Hkb)]; [auto|].
        apply elem_of_cons in Hin. destruct Hin as [-> | Hin].
        -- rewrite Hit in Hitb. injection Hitb as <-. congruence.
        -- right. exists b, itb, sb. auto.
Qed.

Lemma add_roots_Ok analysis roots :
  Forall well_formed analysis -> exists roots', add_roots analysis roots = Ok roots'.
Proof.
  intros H. revert roots. induction H as [|a rest [it Hit] _ IH]; intros roots;
    cbn [add_roots]; [eauto|].
  rewrite Hit, bind_Ok.
  destruct (root it) as [s|]; [destruct (decide (s = ""))|]; apply IH.
Qed.

Lemma collect_roots_spec morphology lines roots roots' :
  collect_roots morphology lines roots = Ok roots' ->
  Forall (line_ok morphology) lines /\
  forall k, k ∈ roots' <->
            k ∈ roots \/ exists line, line ∈ lines /\ line_gives morphology line k.
Proof.
  revert roots. induction lines as [|line rest IH]; intros roots;
    cbn [collect_roots].
  - intros [= <-]. split; [constructor|]. intros k. split; [auto|].
    intros [H | (line & Hin & _)]; [exact H | inversion Hin].
  - cbv zeta. destruct (decide (strip line = "")) as [Hblank|Hword].
    + intros H. apply IH in H. destruct H as [Hrest Hk].
      split; [constructor; [left; exact Hblank | exact Hrest]|].
      intros k. rewrite Hk. split.
      * intros [H | (l & Hin & Hl)]; [auto|].
        right. exists l. split; [apply elem_of_cons; auto | exact Hl].
      * intros [H | (l & Hin & Hl)]; [auto|].
        apply elem_of_cons in Hin. destruct Hin as [-> | Hin].
        -- destruct Hl as [Hne _]. contradiction.
        -- right. exists l. auto.
    + intros H. apply bind_Ok_inv in H. destruct H as (analysis & Han & H).
      apply bind_Ok_inv in H. destruct H as (roots1 & Hadd & H).
      apply add_roots_spec in Hadd. destruct Hadd as [Hwf Hk1].
      apply IH in H. destruct H as [Hrest Hk].
      split; [constructor; [right; exists analysis; auto | exact Hrest]|].
      intros k. rewrite Hk, Hk1. split.
      * intros [[H | (a & it & s & Hin & Hit & Hr & Hs & Hkk)] | (l & Hin & Hl)];
          [auto | |].
        -- right. exists line. split; [apply elem_of_cons; auto|].
           split; [exact Hword|]. exists analysis, a, it, s. repeat split; auto.
        -- right. exists l. split; [apply elem_of_cons; auto | exact Hl].
      * intros [H | (l & Hin & Hl)]; [auto|].
        apply elem_of_cons in Hin. destruct Hin as [-> | Hin].
        -- left. right. destruct Hl as (_ & an & a & it & s & Han' & Hl).
           rewrite Han in Han'. injection Han' as <-.
           exists a, it, s. exact Hl.
        -- right. exists l. auto.
Qed.

Lemma collect_roots_Ok morphology lines roots :
  Forall (line_ok morphology) lines ->
  exists roots', collect_roots morphology lines roots = Ok roots'.
Proof.
  intros H. revert roots.
  induction H as [|line rest Hline _ IH]; intros roots; cbn [collect_roots];
    [eauto|].
  cbv zeta. destruct (decide (strip line = "")) as [Hblank|Hword]; [apply IH|].
  destruct Hline as [Hblank | (analysis & Han & Hwf)]; [contradiction|].
  rewrite Han, bind_Ok.
  destruct (add_roots_Ok analysis roots Hwf) as (roots1 & ->).
  rewrite bind_Ok. apply IH.
Qed.

Lemma preprocess_txt_words_Ok (open_file : FileSystem) file_path morphology lines
    roots :
  open_file file_path = Ok lines ->
  collect_roots morphology lines ∅ = Ok roots ->
  preprocess_txt_words open_file file_path morphology = Ok (gset_to_gmap 1 roots).
Proof.
  intros Ho Hc. unfold preprocess_txt_words, preprocess_txt_words_body, try_except.
  rewrite Ho, bind_Ok, Hc, bind_Ok. reflexivity.
Qed.


Lemma gset_to_gmap_unit roots : unit_weights (gset_to_gmap 1 roots).
Proof.
  intros k w H. apply lookup_gset_to_gmap_Some in H. destruct H as [_ <-].
  reflexivity.
Qed.

(** X19.  When every line of the word file can be analysed, the keys of
    the loaded lexicon are exactly the lowercased non-empty roots of the
    analyses of the non-blank lines, each with weight 1; blank lines and
    analyses without a root contribute nothing. *)
Theorem loaded_lexicon_keys (open_file : FileSystem) file_path morphology lines d k :
  open_file file_path = Ok lines ->
  Forall (line_ok morphology) lines ->
  preprocess_txt_words open_file file_path morphology = Ok d ->
  (d !! k = Some 1 <-> exists line, line ∈ lines /\ line_gives morphology line k) /\
  (d !! k = None <-> ~ exists line, line ∈ lines /\ line_gives morphology line k).
Proof.
  intros Ho Hok Hd.
  destruct (collect_roots_Ok morphology lines ∅ Hok) as (roots & Hc).
  rewrite (preprocess_txt_words_Ok _ _ _ _ _ Ho Hc) in Hd. injection Hd as <-.
  apply collect_roots_spec in Hc. destruct Hc as [_ Hk].
  assert (Hin : k ∈ roots <-> exists line, line ∈ lines /\ line_gives morphology line k).
  { rewrite Hk. split; [|auto]. intros [H|H]; [|exact H].
    apply not_elem_of_empty in H. contradiction. }
  rewrite lookup_gset_to_gmap_Some, lookup_gset_to_gmap_None, <- Hin.
  split; [|reflexivity]. split; [tauto | auto].
Qed.


Lemma lexical_root_of_root it s :
  root it = Some s -> s <> "" -> lexical_root it = lower s.
Proof.
  intros Hr Hs. unfold lexical_root, py_or. rewrite Hr.
  rewrite decide_False by exact Hs. rewrite decide_False by exact Hs.
  reflexivity.
Qed.

(** X21.  Loading and scoring agree on roots: when a word of the positive
    word file is analysed to an item with a non-empty root, any analysis
    with that item is a positive match of weight 1 in [analyze_sentiment]
    (the score moves by [1 * predicate_multiplier], the match counter by 1,
    and the lowercased root is appended to ["positive_words"]). *)
Theorem loaded_root_is_matched (open_file : FileSystem) file_path morphology
    lines d line analysis a it s negative_dict pm st b :
  open_file file_path = Ok lines ->
  Forall (line_ok morphology) lines ->
  preprocess_txt_words open_file file_path morphology = Ok d ->
  line ∈ lines -> strip line <> "" ->
  morphology (strip line) = Ok analysis -> a ∈ analysis ->
  item a = Ok it -> root it = Some s -> s <> "" ->
  item b = Ok it ->
  d !! lexical_root it = Some 1 /\
  score_step d negative_dict pm st b
  = Ok {| a_score := a_score st + 1 * pm;
          a_confidence := a_confidence st + 1;
          a_features := dd_append "positive_words" (FWord (lower s))
                                  (a_features st) |}.
Proof.
  intros Ho Hok Hd Hin Hword Han Ha Hit Hroot Hs Hb.
  destruct (collect_roots_Ok morphology lines ∅ Hok) as (roots & Hc).
  rewrite (preprocess_txt_words_Ok _ _ _ _ _ Ho Hc) in Hd. injection Hd as <-.
  apply collect_roots_spec in Hc. destruct Hc as [_ Hk].
  rewrite (lexical_root_of_root it s Hroot Hs).
  assert (Hlook : gset_to_gmap 1 roots !! lower s = Some 1).
  { apply lookup_gset_to_gmap_Some. split; [|reflexivity].
    apply Hk. right. exists line. split; [exact Hin|].
    split; [exact Hword|]. exists analysis, a, it, s. repeat split; auto. }
  split; [exact Hlook|].
  unfold score_step. rewrite Hb, bind_Ok. cbv zeta.
  rewrite (lexical_root_of_root it s Hroot Hs), Hlook. reflexivity.
Qed.

End LoaderProperties.

(** * Properties of [main] *)

Section MainProperties.

Context {ext : Externals}.

Implicit Types (positive_dict negative_dict : gmap string Z).



End MainProperties.

(** * Further properties of negation and of the tag tests *)

Lemma append_cons (c : ascii) (s t : string) :
  String.append (String c s) t = String c (String.append s t).
Proof. reflexivity. Qed.

Lemma append_nil (t : string) : String.append "" t = t.
Proof. reflexivity. Qed.

Lemma prefix_spec (pat s : string) :
  String.prefix pat s = true <-> exists post, s = String.append pat post.
Proof.
  revert s. induction pat as [|c pat IH]; intros s.
  - split; [intros _; exists s; reflexivity | intros _; destruct s; reflexivity].
  - destruct s as [|d s]; cbn.
    + split; [discriminate | intros [post H]; discriminate].
    + destruct (Ascii.ascii_dec c d) as [->|Hcd].
      * rewrite IH. split; intros [post H]; exists post;
          rewrite ?append_cons in *; congruence.
      * split; [discriminate|]. intros [post H]. rewrite append_cons in H.
        congruence.
Qed.

(** X26.  The tag tests are substring tests: [str_contains pat s] holds
    exactly when [pat] occurs somewhere in [s], so an analysis counts as
    verb-tagged (or negated) whenever "Verb" (or "Neg") occurs anywhere in
    its text. *)
Theorem str_contains_spec (pat s : string) :
  str_contains pat s = true
  <-> exists pre post, s = String.append pre (String.append pat post).
Proof.
  induction s as [|c s IH]; cbn [str_contains].
  - rewrite orb_false_r, prefix_spec. split.
    + intros [post H]. exists "", post. exact H.
    + intros (pre & post & H). destruct pre as [|d pre];
        [|rewrite append_cons in H; discriminate].
      exists post. exact H.
  - rewrite orb_true_iff, prefix_spec, IH. split.
    + intros [[post H] | (pre & post & H)].
      * exists "", post. exact H.
      * exists (String c pre), post. rewrite append_cons, H. reflexivity.
    + intros (pre & post & H). destruct pre as [|d pre].
      * left. exists post. exact H.
      * right. rewrite append_cons in H. injection H as _ H.
        exists pre, post. exact H.
Qed.

Section NegationProperties.

Context {ext : Externals}.

Implicit Types (positive_dict negative_dict : gmap string Z).

Lemma item_roots_items (rs1 rs2 : list Analysis) :
  map item rs1 = map item rs2 -> item_roots rs1 = item_roots rs2.
Proof.
  revert rs2. induction rs1 as [|a rs1 IH]; intros [|b rs2] H; try discriminate;
    [reflexivity|].
  injection H as Hab Hrest. unfold item_roots. cbn. rewrite Hab.
  fold (item_roots rs1) (item_roots rs2). rewrite (IH rs2 Hrest). reflexivity.
Qed.

Lemma sentiment_of_score_opp z :
  sentiment_of_score (- z) = flip_sentiment (sentiment_of_score z).
Proof. unfold sentiment_of_score. repeat case_decide; cbn; (reflexivity || lia). Qed.

(** X27.  Negating the predicate swaps the polarity: of two runs over
    analyses with the same items, one with a negated predicate and one
    without, the sentiments are opposite (Positive against Negative,
    Neutral against Neutral), while the confidence and the two lists of
    matched words are the same. *)
Theorem negated_predicate_flips_sentiment positive_dict negative_dict tokens
    results_neg results_pos r_neg r_pos :
  map item results_neg = map item results_pos ->
  score_results tokens results_neg positive_dict negative_dict = Ok r_neg ->
  score_results tokens results_pos positive_dict negative_dict = Ok r_pos ->
  (exists p, predicate_analysis r_neg = Some p /\ pi_is_negative p = true) ->
  (forall p, predicate_analysis r_pos = Some p -> pi_is_negative p = false) ->
  sentiment r_neg = flip_sentiment (sentiment r_pos) /\
  confidence r_neg = confidence r_pos /\
  features r_neg !! "positive_words" = features r_pos !! "positive_words" /\
  features r_neg !! "negative_words" = features r_pos !! "negative_words".
Proof.
  intros Hitems Hn Hp Hneg Hpos.
  apply score_results_inv in Hn. destruct Hn as (pm1 & pi1 & st1 & Hf1 & Hl1 & ->).
  apply score_results_inv in Hp. destruct Hp as (pm2 & pi2 & st2 & Hf2 & Hl2 & ->).
  cbn [sentiment confidence features predicate_analysis] in *.
  apply find_predicate_negated in Hf1, Hf2.
  destruct Hf1 as [[-> _]|[_ Hno]];
    [| destruct Hneg as (p & Hp & Hpn); rewrite (Hno p Hp) in Hpn; discriminate].
  destruct Hf2 as [[_ (p & Hp & Hpn)]|[-> _]];
    [rewrite (Hpos p Hp) in Hpn; discriminate|].
  pose proof (score_loop_effect _ _ _ _ _ _ Hl1) as (_ & Hpw1 & Hnw1 & _).
  pose proof (score_loop_effect _ _ _ _ _ _ Hl2) as (_ & Hpw2 & Hnw2 & _).
  cbn [a_features] in *.
  rewrite initial_features_lookup in Hpw1, Hnw1, Hpw2, Hnw2.
  rewrite decide_False in Hpw1 by discriminate.
  rewrite decide_False in Hnw1 by discriminate.
  rewrite decide_False in Hpw2 by discriminate.
  rewrite decide_False in Hnw2 by discriminate.
  unfold positive_matches, negative_matches in *.
  rewrite (item_roots_items _ _ Hitems) in Hpw1, Hnw1.
  rewrite (score_loop_items _ _ _ _ _ _ Hitems) in Hl1.
  pose proof (score_loop_mirrored positive_dict negative_dict results_pos
                {| a_score := 0; a_confidence := 0;
                   a_features := initial_features pi1 |}
                {| a_score := 0; a_confidence := 0;
                   a_features := initial_features pi2 |}
                (conj eq_refl eq_refl)) as H.
  rewrite Hl1, Hl2 in H. destruct H as [Hs Hc].
  rewrite Hs, Hc, sentiment_of_score_opp.
  repeat split; congruence.
Qed.

End NegationProperties.

(** * The further properties at concrete inputs *)

Lemma evaluate_model_total_witness :
  exists results,
    evaluate_model (ext := test_externals) test_cases test_morphology
      test_positive test_negative = Ok results /\
    DP results = 1 /\ DN results = 1 /\ YP results = 0 /\ YN results = 1 /\
    DP results + DN results + YP results + YN results = Z.of_nat (length test_cases).
Proof.
  eexists. split; [vm_compute; reflexivity|].
  split; [reflexivity|]. split; [reflexivity|].
  split; [reflexivity|]. split; [reflexivity|].
  apply (evaluate_model_total (ext := test_externals) test_cases test_morphology
           test_positive test_negative).
  - repeat (apply List.Forall_cons; [cbn; auto|]); apply List.Forall_nil.
  - repeat (apply List.Forall_cons; [vm_compute; discriminate|]);
      apply List.Forall_nil.
  - vm_compute; reflexivity.
Defined.

Lemma evaluate_model_counts_permutation_witness :
  exists results results',
    evaluate_model (ext := test_externals) test_cases test_morphology
      test_positive test_negative = Ok results /\
    evaluate_model (ext := test_externals) (rev test_cases) test_morphology
      test_positive test_negative = Ok results' /\
    DP results = DP results' /\ DN results = DN results' /\
    YP results = YP results' /\ YN results = YN results'.
Proof.
  eexists. eexists.
  split; [vm_compute; reflexivity|]. split; [vm_compute; reflexivity|].
  apply (evaluate_model_counts_permutation (ext := test_externals)
           test_cases (rev test_cases) test_morphology test_positive test_negative).
  - apply Permutation_rev.
  - vm_compute; reflexivity.
  - vm_compute; reflexivity.
Defined.

Lemma evaluate_model_unknown_labels_witness :
  exists results,
    evaluate_model (ext := test_externals) test_cases_unlabelled test_morphology
      test_positive test_negative = Ok results /\
    DP results = 0 /\ DN results = 0 /\ YN results = 0 /\ YP results = 1.
Proof.
  eexists. split; [vm_compute; reflexivity|].
  destruct (evaluate_model_unknown_labels (ext := test_externals)
              test_cases_unlabelled test_morphology test_positive test_negative
              {| DP := 0; DN := 0; YP := 1; YN := 0;
                 predictions :=
                   map (entry_of (ext := test_externals) test_morphology
                          test_positive test_negative) test_cases_unlabelled;
                 wrong_predictions :=
                   [forget_features
                      (entry_of (ext := test_externals) test_morphology
                         test_positive test_negative ("bir film", "Olumlu"))] |})
    as (H1 & H2 & H3 & H4).
  - repeat (apply List.Forall_cons; [cbn; split; discriminate|]);
      apply List.Forall_nil.
  - vm_compute; reflexivity.
  - repeat split; reflexivity.
Defined.

Lemma metrics_in_unit_interval_witness :
  exists m,
    compute_metrics (counts 3 2 1 2) = Ok m /\
    (0 <= accuracy m <= 1)%Q /\ (0 <= precision m <= 1)%Q /\
    (0 <= recall m <= 1)%Q /\ (0 <= f1 m <= 1)%Q.
Proof.
  eexists. split; [vm_compute; reflexivity|].
  apply (metrics_in_unit_interval (counts 3 2 1 2)); cbn; try lia.
  vm_compute; reflexivity.
Defined.

Lemma metrics_without_true_positive_witness :
  exists m,
    compute_metrics (counts 0 4 0 0) = Ok m /\
    (precision m == 0)%Q /\ (recall m == 0)%Q /\ f1 m = 0%Q /\
    (accuracy m == 1)%Q.
Proof.
  eexists. split; [vm_compute; reflexivity|].
  destruct (metrics_without_true_positive (counts 0 4 0 0)
              {| accuracy := accuracy_of (counts 0 4 0 0);
                 precision := precision_of (counts 0 4 0 0);
                 recall := recall_of (counts 0 4 0 0);
                 f1 := f1_of (precision_of (counts 0 4 0 0))
                             (recall_of (counts 0 4 0 0)) |})
    as (Hp & Hr & Hf & Ha).
  - reflexivity.
  - vm_compute; reflexivity.
  - split; [vm_compute; reflexivity|]. split; [vm_compute; reflexivity|].
    split; [vm_compute; reflexivity|]. vm_compute. reflexivity.
Defined.

Lemma metrics_of_perfect_run_witness :
  exists m,
    compute_metrics (counts 3 2 0 0) = Ok m /\
    (accuracy m == 1)%Q /\ (precision m == 1)%Q /\ (recall m == 1)%Q /\
    (f1 m == 1)%Q.
Proof.
  eexists. split; [vm_compute; reflexivity|].
  apply (metrics_of_perfect_run (counts 3 2 0 0)); cbn; try lia;
    vm_compute; reflexivity.
Defined.

Lemma features_of_result_witness :
  features sample_result !! "positive_words" = None /\
  features sample_result !! "negative_words" = Some [FWord "kötü"] /\
  features sample_result !! "predicate"
  = Some [FPredicate (Some "değil") true "[değil:Verb] değil:Verb+Neg+Pres+A3sg"] /\
  features sample_result !! "other" = None.
Proof.
  destruct (features_of_result (ext := test_externals) sample_sentence
              test_morphology test_positive test_negative
              sample_tokens sample_results sample_result)
    as (Hpw & Hnw & Hp & Hk).
  - vm_compute; reflexivity.
  - vm_compute; reflexivity.
  - apply analyze_sentiment_Ok.
  - vm_compute; discriminate.
  - rewrite Hpw, Hnw, Hp, Hk by discriminate.
    repeat split; vm_compute; reflexivity.
Defined.

Lemma score_closed_form_witness :
  score sample_result = -1 * (0 - 1).
Proof.
  rewrite (score_closed_form (ext := test_externals) sample_sentence
             test_morphology test_positive test_negative
             sample_tokens sample_results sample_result).
  - vm_compute; reflexivity.
  - vm_compute; reflexivity.
  - vm_compute; reflexivity.
  - apply analyze_sentiment_Ok.
  - vm_compute; discriminate.
Defined.

Lemma unit_weight_score_witness :
  score sample_result = 1 /\
  Z.abs (score sample_result)
  <= Z.of_nat (match_count (ext := test_externals) test_positive test_negative
                 sample_results) /\
  sentiment sample_result <> Neutral.
Proof.
  destruct (unit_weight_score (ext := test_externals) sample_sentence
              test_morphology test_positive test_negative
              sample_tokens sample_results sample_result)
    as (Hs & Habs & Hcount & Hneutral).
  - intros k w H. unfold test_positive in H.
    apply lookup_singleton_Some in H. destruct H as [_ <-]. reflexivity.
  - intros k w H. unfold test_negative in H.
    apply lookup_singleton_Some in H. destruct H as [_ <-]. reflexivity.
  - vm_compute; reflexivity.
  - vm_compute; reflexivity.
  - apply analyze_sentiment_Ok.
  - vm_compute; discriminate.
  - split; [rewrite Hs; vm_compute; reflexivity|]. split; [exact Habs|].
    intros H. apply Hneutral in H. vm_compute in H. discriminate.
Defined.

Lemma predicate_analysis_is_last_verb_witness :
  exists before a after it,
    sample_results = before ++ a :: after /\
    is_verb a = true /\
    Forall (fun b => is_verb b = false) after /\
    item a = Ok it /\
    predicate_analysis sample_result
    = Some {| pi_root := root it; pi_is_negative := is_neg a;
              pi_full_analysis := str_analysis a |}.
Proof.
  pose proof (predicate_analysis_is_last_verb (ext := test_externals)
                sample_sentence test_morphology test_positive test_negative
                sample_tokens sample_results sample_result) as H.
  destruct (predicate_analysis sample_result) as [p|] eqn:Hp;
    [|vm_compute in Hp; discriminate].
  destruct H as (before & a & after & it & H1 & H2 & H3 & H4 & H5).
  - vm_compute; reflexivity.
  - vm_compute; reflexivity.
  - apply analyze_sentiment_Ok.
  - vm_compute; discriminate.
  - exists before, a, after, it. rewrite <- H5. auto.
Defined.

Lemma negated_predicate_flips_sentiment_witness :
  let verb_only := {| str_analysis := "değil:Verb+Pres+A3sg";
                      item := item (test_analysis "değil") |} in
  exists r_neg r_pos,
    score_results (ext := test_externals) ["kötü"; "değil"]
      [test_analysis "kötü"; test_analysis "değil"] test_positive test_negative
    = Ok r_neg /\
    score_results (ext := test_externals) ["kötü"; "değil"]
      [test_analysis "kötü"; verb_only] test_positive test_negative = Ok r_pos /\
    sentiment r_neg = Positive /\ sentiment r_pos = Negative /\
    sentiment r_neg = flip_sentiment (sentiment r_pos) /\
    confidence r_neg = confidence r_pos.
Proof.
  intros verb_only. eexists. eexists.
  split; [vm_compute; reflexivity|]. split; [vm_compute; reflexivity|].
  split; [reflexivity|]. split; [reflexivity|].
  destruct (negated_predicate_flips_sentiment (ext := test_externals)
              test_positive test_negative ["kötü"; "değil"]
              [test_analysis "kötü"; test_analysis "değil"]
              [test_analysis "kötü"; verb_only]
              _ _ eq_refl eq_refl eq_refl) as (Hs & Hc & _).
  - eexists. split; reflexivity.
  - intros p [= <-]. reflexivity.
  - split; [exact Hs | exact Hc].
Defined.

Ltac lines_ok :=
  repeat (apply List.Forall_cons;
          [first [ left; vm_compute; reflexivity
                 | right; eexists; split;
                   [ vm_compute; reflexivity
                   | repeat (apply List.Forall_cons; [eexists; reflexivity|]);
                     apply List.Forall_nil ] ]
          |]);
  apply List.Forall_nil.

Lemma loaded_lexicon_keys_witness :
  preprocess_txt_words (ext := test_externals) test_files "positive_words.txt"
    test_morphology = Ok {["iyi" := 1; "güzel" := 1]} /\
  exists line,
    line ∈ ["iyi"; ""; "güzel"; "iyi"] /\
    line_gives (ext := test_externals) test_morphology line "güzel".
Proof.
  split; [vm_compute; reflexivity|].
  apply (proj1 (proj1 (loaded_lexicon_keys (ext := test_externals)
                         test_files "positive_words.txt" test_morphology
                         ["iyi"; ""; "güzel"; "iyi"]
                         {["iyi" := 1; "güzel" := 1]} "güzel"
                         eq_refl ltac:(lines_ok) ltac:(vm_compute; reflexivity)))).
  vm_compute; reflexivity.
Defined.


Lemma loaded_root_is_matched_witness :
  let it := {| root := Some "iyi"; normalized_form := Some "iyi" |} in
  let d : gmap string Z := {["iyi" := 1; "güzel" := 1]} in
  d !! lexical_root (ext := test_externals) it = Some 1 /\
  score_step (ext := test_externals) d test_negative (-1)
    {| a_score := 0; a_confidence := 0; a_features := ∅ |}
    {| str_analysis := "iyi:Adj"; item := Ok it |}
  = Ok {| a_score := 0 + 1 * -1; a_confidence := 0 + 1;
          a_features := dd_append "positive_words" (FWord "iyi") ∅ |}.
Proof.
  intros it d.
  apply (loaded_root_is_matched (ext := test_externals)
           test_files "positive_words.txt" test_morphology
           ["iyi"; ""; "güzel"; "iyi"] d "iyi" [test_analysis "iyi"]
           (test_analysis "iyi") it "iyi" test_negative (-1)
           {| a_score := 0; a_confidence := 0; a_features := ∅ |}
           {| str_analysis := "iyi:Adj"; item := Ok it |}).
  - reflexivity.
  - lines_ok.
  - vm_compute; reflexivity.
  - apply elem_of_cons. left. reflexivity.
  - vm_compute. discriminate.
  - vm_compute; reflexivity.
  - apply elem_of_cons. left. reflexivity.
  - reflexivity.
  - reflexivity.
  - discriminate.
  - reflexivity.
Defined.


(** * The handlers and the console *)

Section PrintingProperties.

Context {ext : Externals}.

Implicit Types (print : Console) (positive_dict negative_dict : gmap string Z).




(** What [analyze_sentiment_printing] returns is what [analyze_sentiment]
    returns. *)
Lemma analyze_sentiment_printing_inv print sentence morphology
    positive_dict negative_dict r :
  analyze_sentiment_printing print sentence morphology positive_dict negative_dict
  = Ok r ->
  analyze_sentiment sentence morphology positive_dict negative_dict = Ok r.
Proof.
  unfold analyze_sentiment_printing, analyze_sentiment, try_except.
  destruct (analyze_sentiment_body _ _ _ _) as [r'|e]; [auto|].
  destruct (print _) as [[]|e']; [auto | discriminate].
Qed.

Lemma analyze_sentiment_printing_accepting print sentence morphology
    positive_dict negative_dict :
  (forall text, print text = Ok tt) ->
  analyze_sentiment_printing print sentence morphology positive_dict negative_dict
  = analyze_sentiment sentence morphology positive_dict negative_dict.
Proof.
  intros Hp. unfold analyze_sentiment_printing, analyze_sentiment, try_except.
  destruct (analyze_sentiment_body _ _ _ _) as [r'|e]; [reflexivity|].
  rewrite Hp. reflexivity.
Qed.


(** ** The evaluation over the printing scorer *)

Lemma evaluate_loop_printing_inv print morphology positive_dict negative_dict
    test_data results results' :
  evaluate_loop_printing print morphology positive_dict negative_dict
    test_data results = Ok results' ->
  evaluate_loop morphology positive_dict negative_dict test_data results
  = Ok results'.
Proof.
  revert results. induction test_data as [|[sentence true_label] rest IH];
    intros results; cbn [evaluate_loop_printing evaluate_loop]; [auto|].
  intros H. apply bind_Ok_inv in H. destruct H as (results1 & Hstep & H).
  unfold evaluate_step_printing in Hstep.
  apply bind_Ok_inv in Hstep. destruct Hstep as (analysis & Han & Hstep).
  apply analyze_sentiment_printing_inv in Han.
  unfold evaluate_step. rewrite Han, bind_Ok. cbv zeta in *.
  rewrite Hstep, bind_Ok. apply IH, H.
Qed.

Lemma evaluate_model_printing_inv print test_data morphology
    positive_dict negative_dict results :
  evaluate_model_printing print test_data morphology positive_dict negative_dict
  = Ok results ->
  evaluate_model test_data morphology positive_dict negative_dict = Ok results.
Proof. apply evaluate_loop_printing_inv. Qed.

(** X1.  Whenever [evaluate_model] returns, each counter is the number of
    test cases of its bucket: DP counts Positive against "Pozitif", DN
    Negative against "Negatif", YP Positive against "Negatif" and Neutral
    against any label other than "Pozitif", YN Negative against "Pozitif"
    and Neutral against "Pozitif". *)
Theorem evaluate_model_counts print test_data morphology
    positive_dict negative_dict results :
  evaluate_model_printing print test_data morphology positive_dict negative_dict
  = Ok results ->
  DP results = count_cases is_DP morphology positive_dict negative_dict test_data /\
  DN results = count_cases is_DN morphology positive_dict negative_dict test_data /\
  YP results = count_cases is_YP morphology positive_dict negative_dict test_data /\
  YN results = count_cases is_YN morphology positive_dict negative_dict test_data.
Proof.
  intros Hrun. apply evaluate_model_printing_inv in Hrun.
  apply evaluate_loop_effect in Hrun. cbn in Hrun.
  destruct Hrun as (? & ? & ? & ? & _). auto.
Qed.

(** X24.  Whenever the evaluation returns, the metric computation that
    [main] runs on its result returns too (no division error), and
    accuracy, precision, recall and F1 lie in [0,1]. *)
Theorem evaluation_metrics_in_unit_interval print test_data morphology
    positive_dict negative_dict results :
  evaluate_model_printing print test_data morphology positive_dict negative_dict
  = Ok results ->
  exists m,
    compute_metrics results = Ok m /\
    (0 <= accuracy m <= 1)%Q /\ (0 <= precision m <= 1)%Q /\
    (0 <= recall m <= 1)%Q /\ (0 <= f1 m <= 1)%Q.
Proof.
  intros Hrun. apply evaluate_model_printing_inv in Hrun.
  apply evaluate_loop_effect in Hrun. cbn in Hrun.
  destruct Hrun as (Hdp & Hdn & Hyp & Hyn & _).
  unfold count_cases in *.
  match type of Hdp with _ = _ + count_true ?f _ =>
    pose proof (count_true_bounds f test_data) end.
  match type of Hdn with _ = _ + count_true ?f _ =>
    pose proof (count_true_bounds f test_data) end.
  match type of Hyp with _ = _ + count_true ?f _ =>
    pose proof (count_true_bounds f test_data) end.
  match type of Hyn with _ = _ + count_true ?f _ =>
    pose proof (count_true_bounds f test_data) end.
  exists {| accuracy := accuracy_of results;
            precision := precision_of results;
            recall := recall_of results;
            f1 := f1_of (precision_of results) (recall_of results) |}.
  split; [apply compute_metrics_Ok|].
  apply (compute_metrics_bounds results); [lia | lia | lia | lia |].
  apply compute_metrics_Ok.
Qed.

(** ** The loader and the console *)

Lemma evaluate_model_printing_accepting print test_data morphology
    positive_dict negative_dict :
  (forall text, print text = Ok tt) ->
  evaluate_model_printing print test_data morphology positive_dict negative_dict
  = evaluate_model test_data morphology positive_dict negative_dict.
Proof.
  intros Hp. unfold evaluate_model_printing, evaluate_model.
  generalize initial_results.
  induction test_data as [|[sentence true_label] rest IH]; intros results;
    cbn [evaluate_loop_printing evaluate_loop]; [reflexivity|].
  unfold evaluate_step_printing, evaluate_step.
  rewrite (analyze_sentiment_printing_accepting _ _ _ _ _ Hp).
  destruct (analyze_sentiment sentence morphology positive_dict negative_dict)
    as [analysis|e]; [rewrite !bind_Ok; apply IH | reflexivity].
Qed.

Lemma preprocess_txt_words_printing_accepting print (open_file : FileSystem)
    file_path morphology :
  (forall text, print text = Ok tt) ->
  preprocess_txt_words_printing print open_file file_path morphology
  = preprocess_txt_words open_file file_path morphology.
Proof.
  intros Hp. unfold preprocess_txt_words_printing, preprocess_txt_words, try_except.
  destruct (preprocess_txt_words_body _ _ _) as [d|e]; [reflexivity|].
  rewrite Hp. reflexivity.
Qed.

(** X18.  [preprocess_txt_words] returns only dicts whose weights are all
    1, and the dict of its [try] body when the body does not raise.  When
    the file cannot be read, or a single non-blank line cannot be analysed
    (the analysis raises or has a malformed item), it prints the error and,
    when that print does not raise, returns the empty dict: the roots of
    all the other lines are lost.  An exception raised by the print goes
    to the caller. *)
Theorem preprocess_txt_words_fail_soft print (open_file : FileSystem) file_path
    morphology :
  (forall d,
      preprocess_txt_words_printing print open_file file_path morphology = Ok d ->
      unit_weights d) /\
  (forall d,
      preprocess_txt_words_body open_file file_path morphology = Ok d ->
      preprocess_txt_words_printing print open_file file_path morphology = Ok d) /\
  (forall e,
      open_file file_path = Raise e ->
      print (String.append "Error processing text file: " (str_exn e)) = Ok tt ->
      preprocess_txt_words_printing print open_file file_path morphology = Ok ∅) /\
  (forall e e',
      preprocess_txt_words_body open_file file_path morphology = Raise e ->
      print (String.append "Error processing text file: " (str_exn e)) = Raise e' ->
      preprocess_txt_words_printing print open_file file_path morphology
      = Raise e') /\
  (forall lines line,
      open_file file_path = Ok lines ->
      line ∈ lines -> ~ line_ok morphology line ->
      (forall text, print text = Ok tt) ->
      preprocess_txt_words_printing print open_file file_path morphology = Ok ∅).
Proof.
  split; [|split; [|split; [|split]]].
  - intros d. unfold preprocess_txt_words_printing, preprocess_txt_words_body,
      try_except.
    destruct (open_file file_path) as [lines|e]; [rewrite bind_Ok|rewrite bind_Raise].
    + destruct (collect_roots morphology lines ∅) as [roots|e];
        [rewrite bind_Ok|rewrite bind_Raise].
      * intros [= <-]. apply gset_to_gmap_unit.
      * destruct (print _) as [[]|e']; [|discriminate].
        intros [= <-] k w H. rewrite lookup_empty in H. discriminate.
    + destruct (print _) as [[]|e']; [|discriminate].
      intros [= <-] k w H. rewrite lookup_empty in H. discriminate.
  - intros d Hd. unfold preprocess_txt_words_printing, try_except.
    rewrite Hd. reflexivity.
  - intros e He Hp. unfold preprocess_txt_words_printing,
      preprocess_txt_words_body, try_except.
    rewrite He, bind_Raise, Hp. reflexivity.
  - intros e e' He Hp. unfold preprocess_txt_words_printing, try_except.
    rewrite He, Hp. reflexivity.
  - intros lines line Ho Hin Hbad Hp.
    unfold preprocess_txt_words_printing, preprocess_txt_words_body, try_except.
    rewrite Ho, bind_Ok.
    destruct (collect_roots morphology lines ∅) as [roots|e] eqn:Hc.
    + apply collect_roots_spec in Hc. destruct Hc as [Hok _].
      rewrite Forall_forall in Hok. exfalso. apply Hbad, Hok, Hin.
    + rewrite bind_Raise, Hp. reflexivity.
Qed.

End PrintingProperties.

(** * The handlers and the bound at concrete inputs *)




Lemma evaluate_model_counts_witness :
  exists results,
    evaluate_model_printing (ext := test_externals) ascii_console test_cases
      test_morphology test_positive test_negative = Ok results /\
    DP results = 1 /\ DN results = 1 /\ YP results = 0 /\ YN results = 1.
Proof.
  set (run := evaluate_model_printing (ext := test_externals) ascii_console
                test_cases test_morphology test_positive test_negative).
  set (results := match run with Ok r => r | Raise _ => initial_results end).
  assert (Hrun : run = Ok results) by (vm_compute; reflexivity).
  exists results. split; [exact Hrun|].
  destruct (evaluate_model_counts (ext := test_externals) ascii_console test_cases
              test_morphology test_positive test_negative results Hrun)
    as (H1 & H2 & H3 & H4).
  rewrite H1, H2, H3, H4. repeat split; vm_compute; reflexivity.
Defined.

Lemma evaluation_metrics_in_unit_interval_witness :
  exists results m,
    evaluate_model_printing (ext := test_externals) ascii_console test_cases
      test_morphology test_positive test_negative = Ok results /\
    compute_metrics results = Ok m /\
    (0 <= accuracy m <= 1)%Q /\ (0 <= precision m <= 1)%Q /\
    (0 <= recall m <= 1)%Q /\ (0 <= f1 m <= 1)%Q.
Proof.
  set (run := evaluate_model_printing (ext := test_externals) ascii_console
                test_cases test_morphology test_positive test_negative).
  set (results := match run with Ok r => r | Raise _ => initial_results end).
  assert (Hrun : run = Ok results) by (vm_compute; reflexivity).
  destruct (evaluation_metrics_in_unit_interval (ext := test_externals)
              ascii_console test_cases test_morphology test_positive test_negative
              results Hrun) as (m & Hm & Hbounds).
  exists results, m. split; [exact Hrun|]. split; [exact Hm | exact Hbounds].
Defined.

Lemma preprocess_txt_words_fail_soft_witness :
  preprocess_txt_words_printing (ext := test_externals) silent_console test_files
    "positive_words.txt" failing_morphology = Ok ∅ /\
  preprocess_txt_words_printing (ext := test_externals) ascii_console test_files
    "positive_words.txt" failing_morphology_tr = Raise UnicodeEncodeError.
Proof.
  split.
  - apply (proj2 (proj2 (proj2 (proj2
             (preprocess_txt_words_fail_soft (ext := test_externals) silent_console
                test_files "positive_words.txt" failing_morphology))))
             ["iyi"; ""; "güzel"; "iyi"] "iyi").
    + vm_compute; reflexivity.
    + apply elem_of_cons. left. reflexivity.
    + intros [H | (analysis & H & _)]; vm_compute in H; discriminate.
    + reflexivity.
  - apply (proj1 (proj2 (proj2 (proj2
             (preprocess_txt_words_fail_soft (ext := test_externals) ascii_console
                test_files "positive_words.txt" failing_morphology_tr))))
             (AdapterError "çözümleme hatası") UnicodeEncodeError);
      vm_compute; reflexivity.
Defined.
